(** * Parameter and Result containers of mypet (my_ni_pexp/mypet/parameter.py)

    A shallow embedding of the container classes [BaseParameter],
    [Parameter], [PickleParameter], [BaseResult] and [SimpleResult], and the
    properties of their locking, exploration, storage and pickling
    behaviour.

    Python objects are records of their instance attributes, methods are
    functions from the object to an outcome (a returned value or a raised
    exception) and the object after the call, so that a mutation made
    before a [raise] stays visible.  The attribute protocol of
    [SimpleResult] other than [__getattr__] is left out. *)

From Stdlib Require Import ZArith String Ascii DecimalString DecimalNat.
From stdpp Require Import gmap strings list fin_maps.

Local Open Scope string_scope.
Local Open Scope Z_scope.

(** ** Python values *)

(** numpy dtypes of the arrays a parameter may hold. *)
Inductive dtype :=
| dt_bool
| dt_int64
| dt_float64
| dt_complex128
| dt_string (width : nat)
| dt_object.

(** The Python objects that flow through the containers.  A float is its
    IEEE-754 binary64 bit pattern (the containers do no arithmetic on it).
    [VArray] is a [numpy.ndarray] with its [flags.writeable]; [VFrame] is a
    pandas [DataFrame], with [object_table = true] for the subclass
    [ObjectTable]; [VObj] is an instance of any other class, named by the
    class.  [VPickle v] is the [str] returned by [pickle.dumps(v)]: pickle
    is an external library, and a dump is represented by the object it
    decodes to. *)
#[warnings="-register-all"]
Inductive value :=
| VNone
| VBool (b : bool)
| VInt (z : Z)
| VFloat (bits : Z)
| VStr (s : string)
| VList (l : list value)
| VObj (cls : string)
| VArray (dt : dtype) (shape : list nat) (items : list value) (writeable : bool)
| VFrame (object_table : bool) (cols : list (string * list value))
| VPickle (v : value).

Definition float_1_0 : Z := 0x3FF0000000000000.
Definition float_2_0 : Z := 0x4000000000000000.
Definition float_3_0 : Z := 0x4008000000000000.

(** Python type objects, as returned by [type(x)]. *)
Inductive pytype :=
| T_NoneType
| T_bool
| T_int
| T_float
| T_str
| T_list
| T_ndarray
| T_DataFrame
| T_ObjectTable
| T_class (name : string).

Definition type (v : value) : pytype :=
  match v with
  | VNone => T_NoneType
  | VBool _ => T_bool
  | VInt _ => T_int
  | VFloat _ => T_float
  | VStr _ => T_str
  | VList _ => T_list
  | VObj cls => T_class cls
  | VArray _ _ _ _ => T_ndarray
  | VFrame true _ => T_ObjectTable
  | VFrame false _ => T_DataFrame
  | VPickle _ => T_str
  end.

#[global] Instance dtype_eq_dec : EqDecision dtype.
Proof. solve_decision. Defined.

#[global] Instance pytype_eq_dec : EqDecision pytype.
Proof. solve_decision. Defined.

(** Objects that the source compares a type against: a type object, or the
    builtin function [numpy.array] (which is not a type). *)
Inductive pyobj :=
| TypeObj (t : pytype)
| BuiltinFunction (name : string).

#[global] Instance pyobj_eq_dec : EqDecision pyobj.
Proof. solve_decision. Defined.

Module np.
Definition ndarray : pyobj := TypeObj T_ndarray.
Definition array : pyobj := BuiltinFunction "numpy.core.multiarray.array".
Definition str : pyobj := TypeObj T_str.

(** [np.issubdtype(dtype, np.str)]: true exactly for the byte-string
    dtypes. *)
Definition issubdtype_str (d : dtype) : bool :=
  match d with dt_string _ => true | _ => false end.
End np.

(** What [_is_supported_data] looks up in
    [globally.PARAMETER_SUPPORTED_DATA]: a numpy dtype or a type object. *)
Inductive typekey :=
| KDtype (d : dtype)
| KType (t : pytype).

(** ** Exceptions and outcomes *)

Inductive pyexc :=
| ParameterLockedException
| AttributeError
| TypeError
| ValueError
| NameError
| IndexError
| KeyError
| LookupError
| AssertionError
| UnpicklingError.

#[global] Instance pyexc_eq_dec : EqDecision pyexc.
Proof. solve_decision. Defined.

(** An exception is its class and the fixed part of its message, which
    tells the raise sites of one class apart. *)
Record exn := Exn { exc_class : pyexc; exc_msg : string }.

#[global] Instance exn_eq_dec : EqDecision exn.
Proof. solve_decision. Defined.

Inductive outcome (A : Type) :=
| Ok (a : A)
| Raise (e : exn).
Arguments Ok {A} a.
Arguments Raise {A} e.

Definition is_ok {A} (o : outcome A) : bool :=
  match o with Ok _ => true | Raise _ => false end.

(** The error kinds of the specification, as predicates on the exceptions
    the source raises. *)
Module ErrorKind.
Definition msg_locked := "is locked!".
Definition msg_set_explored :=
  "Your Parameter is an explored array can no longer change values!".
Definition msg_set_unsupported := "Unsupported data type: ".
Definition msg_access :=
  "You try to access the %dth parameter in the array of parameters, yet there are only %d potential parameters.".
Definition msg_already_explored :=
  "Your Parameter %s is already explored, cannot explore it further!".
Definition msg_unsupported_item := "%s contains items of not supported type %s.".
Definition msg_mismatch :=
  "Data is not of the same type as the original entry value, new type is %s vs old type %s.".
Definition msg_shrink_empty := "Cannot shrink empty Parameter.".
Definition msg_key_undefined := "global name 'key' is not defined".
Definition msg_tuple_index := "tuple index out of range".
Definition msg_result_unsupported :=
  "Your result >>%s<< of type >>%s<< is not supported.".
Definition msg_info_reserved :=
  ">>Info<< is reserved for storing  information like name and location of the result etc.".
Definition msg_result_missing := ">>%s<< is not part of your result >>%s<<.".
Definition msg_result_no_item := "Your result >>%s<< does not contain %s.".

Definition LockedError (e : exn) : bool :=
  bool_decide (exc_class e = ParameterLockedException).
Definition AlreadyExploredError (e : exn) : bool :=
  bool_decide (e = Exn AttributeError msg_set_explored)
  || bool_decide (e = Exn TypeError msg_already_explored).
Definition UnsupportedTypeError (e : exn) : bool :=
  bool_decide (e = Exn AttributeError msg_set_unsupported)
  || bool_decide (e = Exn TypeError msg_unsupported_item)
  || bool_decide (e = Exn TypeError msg_result_unsupported).
Definition TypeMismatchError (e : exn) : bool :=
  bool_decide (e = Exn TypeError msg_mismatch).
Definition EmptyContainerError (e : exn) : bool :=
  bool_decide (e = Exn TypeError msg_shrink_empty).
Definition IndexError (e : exn) : bool :=
  bool_decide (e = Exn ValueError msg_access).
Definition ReservedNameError (e : exn) : bool :=
  bool_decide (e = Exn ValueError msg_info_reserved).
Definition MissingFieldError (e : exn) : bool :=
  bool_decide (e = Exn AttributeError msg_result_missing)
  || bool_decide (e = Exn AttributeError msg_result_no_item).
End ErrorKind.

(** ** Builtin operations the methods rely on *)

(** [s.split(sep)] for a one-character separator. *)
Fixpoint split (sep : ascii) (s : string) : list string :=
  match s with
  | EmptyString => [EmptyString]
  | String c r =>
      if Ascii.eqb c sep then EmptyString :: split sep r
      else match split sep r with
           | [] => [String c EmptyString]
           | h :: t => String c h :: t
           end
  end.

(** [sep.join(l)]. *)
Fixpoint join (sep : string) (l : list string) : string :=
  match l with
  | [] => EmptyString
  | [x] => x
  | x :: r => x ++ sep ++ join sep r
  end.

(** [t[n]] on a tuple, with Python's negative indices. *)
Definition tuple_getitem (t : list value) (n : Z) : outcome value :=
  let len := Z.of_nat (length t) in
  let i := if n <? 0 then n + len else n in
  if (i <? 0) || (len <=? i) then Raise (Exn IndexError ErrorKind.msg_tuple_index)
  else match t !! Z.to_nat i with
       | Some v => Ok v
       | None => Raise (Exn IndexError ErrorKind.msg_tuple_index)
       end.

(** [str(idx)] for a non-negative index. *)
Definition str_of_nat (n : nat) : string :=
  NilEmpty.string_of_uint (Nat.to_uint n).

(** [a in b] for strings. *)
Definition str_contains (a b : string) : bool :=
  match String.index 0 a b with Some _ => true | None => false end.

(** ** pickle *)
Module pickle.
(** [dumps] on an object pickle can serialise; the exception it raises on
    another object is not modelled, and what is proved of the pickled path
    is stated for [picklable] values. *)
Definition dumps (v : value) : value := VPickle v.
Definition loads (dump : value) : outcome value :=
    match dump with
    | VPickle v => Ok v
    | _ => Raise (Exn UnpicklingError "could not unpickle")
    end.
End pickle.

(** ** ObjectTable *)

(** [ObjectTable] is a pandas [DataFrame] built with [dtype=object]: its
    columns, in order, each holding its cells verbatim. *)
Record ObjectTable := { columns : list (string * list value) }.

(** [ObjectTable(data={name: column})]. *)
Definition ObjectTable_of (name : string) (column : list value) : ObjectTable :=
  {| columns := [(name, column)] |}.

(** [table[name]]. *)
Fixpoint column_lookup (name : string) (cols : list (string * list value))
  : outcome (list value) :=
  match cols with
  | [] => Raise (Exn KeyError name)
  | (k, c) :: r => if String.eqb k name then Ok c else column_lookup name r
  end.

Definition table_getitem (t : ObjectTable) (name : string) : outcome (list value) :=
  column_lookup name (columns t).

(** [series[0]]. *)
Definition series_first (column : list value) : outcome value :=
  match column with
  | v :: _ => Ok v
  | [] => Raise (Exn LookupError "0")
  end.

(** [table.columns.tolist()[0]]. *)
Definition first_column_name (t : ObjectTable) : outcome string :=
  match columns t with
  | (k, _) :: _ => Ok k
  | [] => Raise (Exn IndexError "list index out of range")
  end.

(** [d[key]] on the dict handed to [__load__]. *)
Definition dict_getitem (d : gmap string ObjectTable) (key : string)
  : outcome ObjectTable :=
  match d !! key with
  | Some t => Ok t
  | None => Raise (Exn KeyError key)
  end.

(** ** The parameter object *)

(** [param] is an instance of the class [Parameter] or of its subclass
    [PickleParameter], told apart by [klass]. *)

Inductive pclass := CParameter | CPickleParameter.

(** [_explored_data] is a tuple, except after [shrink], which assigns the
    empty dict [{}] to it. *)
Inductive explored :=
| ExplTuple (t : list value)
| ExplEmptyDict.

Record param := {
  klass : pclass;
  _fullname : string;
  _name : string;
  _location : string;
  _comment : option string;
  _length : nat;
  _locked : bool;
  _data : value;
  _explored_data : explored;
  _logger : string;
  _fullcopy : bool
}.

Definition set_fullname (x : string) (o : param) : param :=
  {| klass := klass o; _fullname := x; _name := _name o; _location := _location o;
     _comment := _comment o; _length := _length o; _locked := _locked o;
     _data := _data o; _explored_data := _explored_data o; _logger := _logger o;
     _fullcopy := _fullcopy o |}.
Definition set_name (x : string) (o : param) : param :=
  {| klass := klass o; _fullname := _fullname o; _name := x; _location := _location o;
     _comment := _comment o; _length := _length o; _locked := _locked o;
     _data := _data o; _explored_data := _explored_data o; _logger := _logger o;
     _fullcopy := _fullcopy o |}.
Definition set_location (x : string) (o : param) : param :=
  {| klass := klass o; _fullname := _fullname o; _name := _name o; _location := x;
     _comment := _comment o; _length := _length o; _locked := _locked o;
     _data := _data o; _explored_data := _explored_data o; _logger := _logger o;
     _fullcopy := _fullcopy o |}.
Definition set_comment (x : option string) (o : param) : param :=
  {| klass := klass o; _fullname := _fullname o; _name := _name o; _location := _location o;
     _comment := x; _length := _length o; _locked := _locked o;
     _data := _data o; _explored_data := _explored_data o; _logger := _logger o;
     _fullcopy := _fullcopy o |}.
Definition set_length (x : nat) (o : param) : param :=
  {| klass := klass o; _fullname := _fullname o; _name := _name o; _location := _location o;
     _comment := _comment o; _length := x; _locked := _locked o;
     _data := _data o; _explored_data := _explored_data o; _logger := _logger o;
     _fullcopy := _fullcopy o |}.
Definition set_locked (x : bool) (o : param) : param :=
  {| klass := klass o; _fullname := _fullname o; _name := _name o; _location := _location o;
     _comment := _comment o; _length := _length o; _locked := x;
     _data := _data o; _explored_data := _explored_data o; _logger := _logger o;
     _fullcopy := _fullcopy o |}.
Definition set_data (x : value) (o : param) : param :=
  {| klass := klass o; _fullname := _fullname o; _name := _name o; _location := _location o;
     _comment := _comment o; _length := _length o; _locked := _locked o;
     _data := x; _explored_data := _explored_data o; _logger := _logger o;
     _fullcopy := _fullcopy o |}.
Definition set_explored_data (x : explored) (o : param) : param :=
  {| klass := klass o; _fullname := _fullname o; _name := _name o; _location := _location o;
     _comment := _comment o; _length := _length o; _locked := _locked o;
     _data := _data o; _explored_data := x; _logger := _logger o;
     _fullcopy := _fullcopy o |}.
Definition set_logger (x : string) (o : param) : param :=
  {| klass := klass o; _fullname := _fullname o; _name := _name o; _location := _location o;
     _comment := _comment o; _length := _length o; _locked := _locked o;
     _data := _data o; _explored_data := _explored_data o; _logger := x;
     _fullcopy := _fullcopy o |}.
Definition set_fullcopy (x : bool) (o : param) : param :=
  {| klass := klass o; _fullname := _fullname o; _name := _name o; _location := _location o;
     _comment := _comment o; _length := _length o; _locked := _locked o;
     _data := _data o; _explored_data := _explored_data o; _logger := _logger o;
     _fullcopy := x |}.

(** A method call on an object of type [S]: the outcome and the object
    after the call. *)
Definition St (S A : Type) : Type := S -> outcome A * S.

Definition ret {S A} (a : A) : St S A := fun self => (Ok a, self).
Definition raise {S A} (e : exn) : St S A := fun self => (Raise e, self).
Definition bind {S A B} (m : St S A) (k : A -> St S B) : St S B :=
  fun self =>
    match m self with
    | (Ok a, self') => k a self'
    | (Raise e, self') => (Raise e, self')
    end.
Definition assign {S} (f : S -> S) : St S unit :=
  fun self => (Ok tt, f self).
Definition read {S A} (f : S -> A) : St S A :=
  fun self => (Ok (f self), self).
Definition lift {S A} (o : outcome A) : St S A := fun self => (o, self).

Abbreviation M := (St param).

Notation "'do' x <- m ; k" := (bind m (fun x => k))
  (at level 10, x name, m at level 100, k at level 200).
Notation "m ;; k" := (bind m (fun _ => k))
  (at level 100, k at level 200, right associativity).

(** ** class BaseParameter *)
Module BaseParameter.

(** [__init__]: the attributes the base class does not assign ([_data],
    [_explored_data], [_logger], [_fullcopy]) do not exist yet; they hold
    the values the subclass constructor gives them first. *)
Definition __init__ (cls : pclass) (fullname : string) : param :=
  let split_name := split "." fullname in
  {| klass := cls;
     _fullname := fullname;
     _name := List.last split_name "";
     _location := join "." (List.removelast split_name);
     _comment := Some "";
     _length := 0%nat;
     _locked := false;
     _data := VNone;
     _explored_data := ExplTuple [];
     _logger := "";
     _fullcopy := false |}.

Definition _rename (fullname : string) : M unit :=
  assign (set_fullname fullname) ;;
  let split_name := split "." fullname in
  assign (set_name (List.last split_name "")) ;;
  assign (set_location (join "." (List.removelast split_name))).

Definition get_comment : M (option string) := read _comment.
Definition __len__ : M nat := read _length.
Definition is_array : M bool := do n <- __len__; ret (1 <? n)%nat.
Definition is_locked : M bool := read _locked.
Definition get_location : M string := read _location.
Definition unlock : M unit := assign (set_locked false).
Definition lock : M unit := assign (set_locked true).
Definition get_fullname : M string := read _fullname.
Definition gfn : M string := get_fullname.
Definition get_name : M string := read _name.
Definition is_empty : M bool := do n <- __len__; ret (n =? 0)%nat.

End BaseParameter.

(** ** class Parameter *)
Module Param.
Import BaseParameter.

Section Supported.
(** [globally.PARAMETER_SUPPORTED_DATA], a tuple of types and dtypes defined
    in another module of the package: membership in it is a parameter. *)
Variable PARAMETER_SUPPORTED_DATA : typekey -> bool.

Definition _is_supported_data (data : value) : bool :=
  let dtype :=
    match data with
    | VArray dt _ _ _ => if np.issubdtype_str dt then KType T_str else KDtype dt
    | _ => KType (type data)
    end in
  PARAMETER_SUPPORTED_DATA dtype.

(** [self._is_supported_data(data)]: the method of the object's class
    ([PickleParameter] overrides it with the constant [True]). *)
Definition self_is_supported_data (data : value) : M bool :=
  do cls <- read klass;
  match cls with
  | CParameter => ret (_is_supported_data data)
  | CPickleParameter => ret true
  end.

(** [val.dtype] and [np.shape(val)]. *)
Definition dtype_of (v : value) : option dtype :=
  match v with VArray dt _ _ _ => Some dt | _ => None end.
Definition np_shape (v : value) : list nat :=
  match v with VArray _ sh _ _ => sh | _ => [] end.

(** The second test compares a type with the function [np.array]. *)
Definition _values_of_same_type (val1 val2 : value) : bool :=
  if negb (bool_decide (type val1 = type val2)) then false
  else if bool_decide (TypeObj (type val1) = np.array) then
    if negb (bool_decide (dtype_of val1 = dtype_of val2)) then false
    else if negb (bool_decide (np_shape val1 = np_shape val2)) then false
    else true
  else true.

Definition add_comment (comment : string) : M unit :=
  do c <- read _comment;
  match c with
  | None => assign (set_comment (Some comment))
  | Some old => assign (set_comment (Some (old ++ ";" ++ String (ascii_of_nat 10) " " ++ comment)))
  end.

Definition _convert_data (val : value) : value :=
  match val with
  | VArray dt sh items _ => VArray dt sh items false
  | _ => val
  end.

Definition set (data : value) : M unit :=
  do locked <- is_locked;
  if locked then raise (Exn ParameterLockedException ErrorKind.msg_locked) else
  do arr <- is_array;
  if arr then raise (Exn AttributeError ErrorKind.msg_set_explored) else
  let val := _convert_data data in
  do ok <- self_is_supported_data val;
  if negb ok then raise (Exn AttributeError ErrorKind.msg_set_unsupported) else
  assign (set_data val) ;;
  assign (set_length 1).

(** [__init__]: [not data == None] holds for every object but [None] (for
    an array too, with the numpy of the time of the code, where comparing
    an array with [None] gives [False]; a later numpy, and pandas for a
    frame, compare element by element, and [not] then raises ValueError
    for more than one element: what is proved of the constructor's exits
    leaves arrays and frames out); the constructor raises what
    [self.set(data)] raises. *)
Definition __init__ (cls : pclass) (fullname : string) (data : value)
  (comment : option string) : outcome param :=
  let self := BaseParameter.__init__ cls fullname in
  let self := set_comment comment self in
  let self := set_data VNone self in
  let self := set_explored_data (ExplTuple []) self in
  let self := set_logger ("mypet.parameter.Parameter=" ++ fullname) self in
  let r := match data with
           | VNone => (Ok tt, self)
           | _ => set data self
           end in
  match r with
  | (Ok _, self) => Ok (set_fullcopy false self)
  | (Raise e, _) => Raise e
  end.

(** The pickled state: [__dict__] without [_logger]. *)
Record statedict := {
  st_fullname : string;
  st_name : string;
  st_location : string;
  st_comment : option string;
  st_length : nat;
  st_locked : bool;
  st_data : value;
  st_explored_data : explored;
  st_fullcopy : bool
}.

Definition __getstate__ (self : param) : statedict :=
  {| st_fullname := _fullname self;
     st_name := _name self;
     st_location := _location self;
     st_comment := _comment self;
     st_length := _length self;
     st_locked := _locked self;
     st_data := _data self;
     st_explored_data :=
       if negb (_fullcopy self) then ExplTuple [] else _explored_data self;
     st_fullcopy := _fullcopy self |}.

Definition __setstate__ (st : statedict) : M unit :=
  assign (fun self =>
    {| klass := klass self;
       _fullname := st_fullname st;
       _name := st_name st;
       _location := st_location st;
       _comment := st_comment st;
       _length := st_length st;
       _locked := st_locked st;
       _data := st_data st;
       _explored_data := st_explored_data st;
       _logger := _logger self;
       _fullcopy := st_fullcopy st |}) ;;
  do fullname <- read _fullname;
  assign (set_logger ("mypet.parameter.Parameter=" ++ fullname)).

(** [self._explored_data[n]]. *)
Definition explored_getitem (e : explored) (n : Z) : outcome value :=
  match e with
  | ExplTuple t => tuple_getitem t n
  | ExplEmptyDict => Raise (Exn KeyError (NilEmpty.string_of_int (Z.to_int n)))
  end.

Definition set_parameter_access (n : Z) : M unit :=
  do len <- __len__;
  do arr <- is_array;
  if (Z.of_nat len <=? n) && arr then raise (Exn ValueError ErrorKind.msg_access)
  else
    do e <- read _explored_data;
    do v <- lift (explored_getitem e n);
    assign (set_data v).

(** [get_array] calls [self._isarray()], which no class defines. *)
Definition get_array : M (list value) :=
  raise (Exn AttributeError "'Parameter' object has no attribute '_isarray'").

(** The loop of [_data_sanity_checks]; the message of the first [raise]
    mentions the undefined name [key], so a [NameError] is what it
    raises. *)
Fixpoint _data_sanity_checks_loop (default_val : value) (data_list : list value)
  (data_tuple : list value) : M (list value) :=
  match data_list with
  | [] => ret data_tuple
  | val :: rest =>
      let newval := _convert_data val in
      do ok <- self_is_supported_data newval;
      if negb ok then raise (Exn NameError ErrorKind.msg_key_undefined) else
      if negb (_values_of_same_type newval default_val)
      then raise (Exn TypeError ErrorKind.msg_mismatch) else
      _data_sanity_checks_loop default_val rest (data_tuple ++ [newval])
  end.

Definition _data_sanity_checks (data_list : list value) : M (list value) :=
  do default_val <- read _data;
  _data_sanity_checks_loop default_val data_list [].

Definition explore (explore_list : list value) : M unit :=
  do locked <- is_locked;
  if locked then raise (Exn ParameterLockedException ErrorKind.msg_locked) else
  do arr <- is_array;
  if arr then raise (Exn TypeError ErrorKind.msg_already_explored) else
  do data_tuple <- _data_sanity_checks explore_list;
  assign (set_length (length data_tuple)) ;;
  assign (set_explored_data (ExplTuple data_tuple)) ;;
  lock.

(** The rows of a column built from [_explored_data]. *)
Definition explored_rows (e : explored) : list value :=
  match e with
  | ExplTuple t => t
  | ExplEmptyDict => []
  end.

Definition __store__ : M (gmap string ObjectTable) :=
  do data <- read _data;
  let store_dict : gmap string ObjectTable :=
    <["Data" := ObjectTable_of "data" [data]]> ∅ in
  do arr <- is_array;
  if arr then
    do e <- read _explored_data;
    ret (<["ExploredData" := ObjectTable_of "data" (explored_rows e)]> store_dict)
  else ret store_dict.

Definition __load__ (load_dict : gmap string ObjectTable) : M unit :=
  do data_table <- lift (dict_getitem load_dict "Data");
  do col <- lift (table_getitem data_table "data");
  do v <- lift (series_first col);
  assign (set_data v) ;;
  match load_dict !! "ExploredData" with
  | Some explore_table =>
      do col <- lift (table_getitem explore_table "data");
      assign (set_explored_data (ExplTuple col)) ;;
      do e <- read _explored_data;
      assign (set_length (length (explored_rows e)))
  | None => assign (set_length 1)
  end.

Definition set_full_copy (val : value) : M unit :=
  match val with
  | VBool b => assign (set_fullcopy b)
  | _ => raise (Exn AssertionError "")
  end.

Definition get : M value :=
  lock ;;
  read _data.

Definition shrink : M unit :=
  do e <- is_empty;
  if e then raise (Exn TypeError ErrorKind.msg_shrink_empty) else
  do locked <- is_locked;
  if locked then raise (Exn ParameterLockedException ErrorKind.msg_locked) else
  assign (set_explored_data ExplEmptyDict) ;;
  assign (set_length 1).

Definition empty : M unit :=
  do locked <- is_locked;
  if locked then raise (Exn ParameterLockedException ErrorKind.msg_locked) else
  shrink ;;
  assign (set_data VNone) ;;
  assign (set_length 0).

End Supported.
End Param.

(** ** class PickleParameter *)
Module PickleParameter.
Import BaseParameter.

Definition identifier : string := "__pckl__".

Definition _is_supported_data (data : value) : bool := true.

Section Supported.
Variable PARAMETER_SUPPORTED_DATA : typekey -> bool.

Definition __store__ : M (gmap string ObjectTable) :=
  do data <- read _data;
  if negb (Param._is_supported_data PARAMETER_SUPPORTED_DATA data) then
    let dump := pickle.dumps data in
    let store_dict : gmap string ObjectTable :=
      <["Data" := ObjectTable_of ("data" ++ identifier) [dump]]> ∅ in
    do arr <- is_array;
    if arr then
      do e <- read _explored_data;
      let explore_list := map pickle.dumps (Param.explored_rows e) in
      ret (<["ExploredData" := ObjectTable_of ("data" ++ identifier) explore_list]>
             store_dict)
    else ret store_dict
  else Param.__store__.

(** The loop over [pickle_col]. *)
Fixpoint loads_all (pickle_col : list value) (explore_list : list value)
  : outcome (list value) :=
  match pickle_col with
  | [] => Ok explore_list
  | dump :: rest =>
      match pickle.loads dump with
      | Ok v => loads_all rest (explore_list ++ [v])
      | Raise e => Raise e
      end
  end.

Definition __load__ (load_dict : gmap string ObjectTable) : M unit :=
  do data_table <- lift (dict_getitem load_dict "Data");
  do data_name <- lift (first_column_name data_table);
  if str_contains identifier data_name then
    do col <- lift (table_getitem data_table ("data" ++ identifier));
    do dump <- lift (series_first col);
    do v <- lift (pickle.loads dump);
    assign (set_data v) ;;
    match load_dict !! "ExploredData" with
    | Some explore_table =>
        do pickle_col <- lift (table_getitem explore_table ("data" ++ identifier));
        do explore_list <- lift (loads_all pickle_col []);
        assign (set_explored_data (ExplTuple explore_list)) ;;
        do e <- read _explored_data;
        assign (set_length (length (Param.explored_rows e)))
    | None => ret tt
    end
  else Param.__load__ load_dict.

End Supported.
End PickleParameter.

(** ** Method dispatch on the class of the object *)
Section Dispatch.
Variable PARAMETER_SUPPORTED_DATA : typekey -> bool.

(** [self.__store__()]. *)
Definition store : M (gmap string ObjectTable) :=
  do cls <- read klass;
  match cls with
  | CParameter => Param.__store__
  | CPickleParameter => PickleParameter.__store__ PARAMETER_SUPPORTED_DATA
  end.

(** [self.__load__(load_dict)]. *)
Definition load (load_dict : gmap string ObjectTable) : M unit :=
  do cls <- read klass;
  match cls with
  | CParameter => Param.__load__ load_dict
  | CPickleParameter => PickleParameter.__load__ load_dict
  end.

End Dispatch.

(** ** class SimpleResult (with BaseResult) *)

Record result := {
  r_fullname : string;
  r_name : string;
  r_location : string;
  r_data : gmap string value;
  r_comment : value
}.

Module BaseResult.

(** [__init__]; [_data] and [_comment] are assigned by the subclass. *)
Definition __init__ (fullname : string) : result :=
  let split_name := split "." fullname in
  {| r_fullname := fullname;
     r_name := List.last split_name "";
     r_location := join "." (List.removelast split_name);
     r_data := ∅;
     r_comment := VNone |}.

Definition get_name : St result string := read r_name.
Definition get_fullname : St result string := read r_fullname.
Definition get_location : St result string := read r_location.

End BaseResult.

Module SimpleResult.

Definition set_r_data (d : gmap string value) (o : result) : result :=
  {| r_fullname := r_fullname o; r_name := r_name o; r_location := r_location o;
     r_data := d; r_comment := r_comment o |}.
Definition set_r_comment (c : value) (o : result) : result :=
  {| r_fullname := r_fullname o; r_name := r_name o; r_location := r_location o;
     r_data := r_data o; r_comment := c |}.

(** [isinstance(item, (np.ndarray, ObjectTable, DataFrame))]. *)
Definition is_bulk (item : value) : bool :=
  match item with
  | VArray _ _ _ _ => true
  | VFrame _ _ => true
  | _ => false
  end.

(** [isinstance(item, str)]. *)
Definition is_str (item : value) : bool :=
  bool_decide (type item = T_str).

Definition set_single (name : string) (item : value) : St result unit :=
  (if String.eqb name "comment" || String.eqb name "Comment" then
     if is_str item then assign (set_r_comment item)
     else raise (Exn AssertionError "")
   else ret tt) ;;
  if String.eqb name "Info" then raise (Exn ValueError ErrorKind.msg_info_reserved) else
  if is_bulk item then
    do d <- read r_data;
    assign (set_r_data (<[name := item]> d))
  else raise (Exn TypeError ErrorKind.msg_result_unsupported).

(** The loop over [enumerate(args)], from index [idx]. *)
Fixpoint set_args (idx : nat) (args : list value) : St result unit :=
  match args with
  | [] => ret tt
  | arg :: rest =>
      let valstr := "res" ++ str_of_nat idx in
      set_single valstr arg ;;
      set_args (S idx) rest
  end.

(** The loop over [kwargs.items()]; [kwargs] lists the items in the order
    the dict yields them. *)
Fixpoint set_kwargs (kwargs : list (string * value)) : St result unit :=
  match kwargs with
  | [] => ret tt
  | (key, arg) :: rest =>
      set_single key arg ;;
      set_kwargs rest
  end.

Definition set (args : list value) (kwargs : list (string * value)) : St result unit :=
  set_args 0 args ;;
  set_kwargs kwargs.

(** [kwargs.pop(key, None)]: the value and the remaining items. *)
Fixpoint kwargs_pop (key : string) (kwargs : list (string * value))
  : value * list (string * value) :=
  match kwargs with
  | [] => (VNone, [])
  | (k, v) :: rest =>
      if String.eqb k key then (v, rest)
      else let '(r, rest') := kwargs_pop key rest in (r, (k, v) :: rest')
  end.

Definition __init__ (fullname : string) (args : list value)
  (kwargs : list (string * value)) : outcome result :=
  let self := BaseResult.__init__ fullname in
  let self := set_r_data ∅ self in
  let '(comment, kwargs) := kwargs_pop "comment" kwargs in
  let self := set_r_comment comment self in
  match set args kwargs self with
  | (Ok _, self) => Ok self
  | (Raise e, _) => Raise e
  end.

Definition is_empty : St result bool :=
  do d <- read r_data; ret (bool_decide (size d = 0%nat)).

Definition empty : St result unit := assign (set_r_data ∅).

Definition __store__ : St result (gmap string value) := read r_data.

Definition __load__ (load_dict : gmap string value) : St result unit :=
  assign (set_r_data load_dict).

(** [__getattr__(name)] on a constructed result, for a name that is not an
    instance attribute. *)
Definition __getattr__ (name : string) : St result value :=
  if String.eqb name "Comment" || String.eqb name "comment" then read r_comment else
  do d <- read r_data;
  match d !! name with
  | None => raise (Exn AttributeError ErrorKind.msg_result_missing)
  | Some item => ret item
  end.

End SimpleResult.

(** ** The supported kinds *)
Module globally.

(** Modelled from the spec: the tuple [PARAMETER_SUPPORTED_DATA] of
    mypet/globally.py, which none of the source files defines.  The
    classifier of the specification accepts the closed set of kinds
    Int, Float, Bool, String and Array(elementKind). *)
Definition PARAMETER_SUPPORTED_DATA (k : typekey) : bool :=
  match k with
  | KType T_int | KType T_float | KType T_bool | KType T_str => true
  | KDtype dt_int64 | KDtype dt_float64 | KDtype dt_bool => true
  | _ => false
  end.

End globally.

(** Type compatibility as the specification words it: the same kind and,
    for arrays, the same element kind and the same shape. *)
Definition spec_type_compatible (v1 v2 : value) : bool :=
  bool_decide (type v1 = type v2)
  && match v1, v2 with
     | VArray d1 s1 _ _, VArray d2 s2 _ _ =>
         bool_decide (d1 = d2) && bool_decide (s1 = s2)
     | _, _ => true
     end.

(** ** Sequences of method calls *)

(** The calls a client makes on a parameter object. *)
Inductive op :=
| OpSet (data : value)
| OpExplore (explore_list : list value)
| OpGet
| OpLock
| OpUnlock
| OpShrink
| OpEmpty
| OpSetParameterAccess (n : Z)
| OpAddComment (comment : string)
| OpSetFullCopy (val : value)
| OpRename (fullname : string)
| OpStore
| OpLoad (load_dict : gmap string ObjectTable).

Definition is_unlock (o : op) : bool :=
  match o with OpUnlock => true | _ => false end.

Section Calls.
Variable PARAMETER_SUPPORTED_DATA : typekey -> bool.

(** The object after one call, whether it returned or raised. *)
Definition run_op (o : op) (self : param) : param :=
  match o with
  | OpSet data => snd (Param.set PARAMETER_SUPPORTED_DATA data self)
  | OpExplore l => snd (Param.explore PARAMETER_SUPPORTED_DATA l self)
  | OpGet => snd (Param.get self)
  | OpLock => snd (BaseParameter.lock self)
  | OpUnlock => snd (BaseParameter.unlock self)
  | OpShrink => snd (Param.shrink self)
  | OpEmpty => snd (Param.empty self)
  | OpSetParameterAccess n => snd (Param.set_parameter_access n self)
  | OpAddComment c => snd (Param.add_comment c self)
  | OpSetFullCopy v => snd (Param.set_full_copy v self)
  | OpRename f => snd (BaseParameter._rename f self)
  | OpStore => snd (store PARAMETER_SUPPORTED_DATA self)
  | OpLoad d => snd (load d self)
  end.

Definition run_ops (ops : list op) (self : param) : param :=
  fold_left (fun s o => run_op o s) ops self.

(** The objects a client can hold: built by the constructor and changed by
    method calls only. *)
Inductive reachable : param -> Prop :=
| reachable_init cls fullname data comment self :
    Param.__init__ PARAMETER_SUPPORTED_DATA cls fullname data comment = Ok self ->
    reachable self
| reachable_call o self :
    reachable self -> reachable (run_op o self).

(** An exploring object holds as many explored values as its length. *)
Definition explored_consistent (self : param) : Prop :=
  (1 < _length self)%nat ->
  exists t, _explored_data self = ExplTuple t /\ length t = _length self.

End Calls.

(** ** Pickling *)

(** [object.__new__(cls)]: an instance without attributes; every attribute
    of the record is assigned by [__setstate__] before it is read. *)
Definition __new__ (cls : pclass) : param :=
  {| klass := cls; _fullname := ""; _name := ""; _location := "";
     _comment := None; _length := 0%nat; _locked := false; _data := VNone;
     _explored_data := ExplTuple []; _logger := ""; _fullcopy := false |}.

(** Unpickling: a new instance of the class, then [__setstate__]. *)
Definition unpickle (cls : pclass) (st : Param.statedict) : param :=
  snd (Param.__setstate__ st (__new__ cls)).

(** The copy a worker receives: the object pickled and unpickled. *)
Definition transfer (self : param) : param :=
  unpickle (klass self) (Param.__getstate__ self).

(** ** The checks of [explore] on one candidate *)
Section Candidates.
Variable PARAMETER_SUPPORTED_DATA : typekey -> bool.

(** What the loop of [_data_sanity_checks] requires of one candidate. *)
Definition candidate_passes (cls : pclass) (default_val val : value) : bool :=
  match cls with
  | CParameter => Param._is_supported_data PARAMETER_SUPPORTED_DATA (Param._convert_data val)
  | CPickleParameter => true
  end
  && Param._values_of_same_type (Param._convert_data val) default_val.

End Candidates.

(** ** Concrete containers *)

(** [Parameter("x", 1.0)], and the same object after
    [explore([1.0, 2.0, 3.0])]. *)
Definition Parameter_x : outcome param :=
  Param.__init__ globally.PARAMETER_SUPPORTED_DATA CParameter "x"
    (VFloat float_1_0) None.

Definition param_x : param :=
  Eval vm_compute in
    match Parameter_x with
    | Ok p => p
    | Raise _ => BaseParameter.__init__ CParameter "x"
    end.

(** [Parameter("y")], a fresh parameter without data. *)
Definition fresh_y : param :=
  Eval vm_compute in
    match Param.__init__ globally.PARAMETER_SUPPORTED_DATA CParameter "y" VNone None with
    | Ok p => p
    | Raise _ => BaseParameter.__init__ CParameter "y"
    end.

Definition points_123 : list value :=
  [VFloat float_1_0; VFloat float_2_0; VFloat float_3_0].

Definition param_x_explored : param :=
  run_op globally.PARAMETER_SUPPORTED_DATA (OpExplore points_123) param_x.

(** A float array of shape (2,), one of shape (3,), and a list. *)
Definition array_of_2 : value :=
  VArray dt_float64 [2%nat] [VFloat float_1_0; VFloat float_2_0] true.
Definition array_of_3 : value :=
  VArray dt_float64 [3%nat] [VFloat float_1_0; VFloat float_2_0; VFloat float_3_0] true.

Definition list_1_2 : value := VList [VInt 1; VInt 2].

(** [PickleParameter("y")], without data. *)
Definition fresh_pickle_y : param :=
  Eval vm_compute in
    match Param.__init__ globally.PARAMETER_SUPPORTED_DATA CPickleParameter "y"
            VNone None with
    | Ok p => p
    | Raise _ => BaseParameter.__init__ CPickleParameter "y"
    end.

(** [Parameter("x")], and the same object after [set(array([1.0, 2.0]))]. *)
Definition fresh_x : param :=
  Eval vm_compute in
    match Param.__init__ globally.PARAMETER_SUPPORTED_DATA CParameter "x" VNone None with
    | Ok p => p
    | Raise _ => BaseParameter.__init__ CParameter "x"
    end.

Definition param_array : param :=
  Eval vm_compute in
    snd (Param.set globally.PARAMETER_SUPPORTED_DATA array_of_2 fresh_x).

(** [PickleParameter("x", [1, 2])]. *)
Definition pickle_x : param :=
  Eval vm_compute in
    match Param.__init__ globally.PARAMETER_SUPPORTED_DATA CPickleParameter "x"
            list_1_2 None with
    | Ok p => p
    | Raise _ => BaseParameter.__init__ CPickleParameter "x"
    end.

(** A record whose "ExploredData" table has no row: what [store()] returns
    on the copy transferred to a worker. *)
Definition record_without_rows : gmap string ObjectTable :=
  <["ExploredData" := ObjectTable_of "data" []]>
    (<["Data" := ObjectTable_of "data" [VFloat float_1_0]]> ∅).

(** ** String rendering of a parameter *)
Section Display.
(** The builtin [str] on the values a parameter holds; it may raise, since
    it runs the [__str__] of the object. *)
Variable py_str : value -> outcome string.

(** [BaseParameter.to_str]: [try ... except Exception ... finally]. *)
Definition to_str : M string :=
  fun self =>
    let old_locked := _locked self in
    let '(r, self) := (do v <- Param.get; lift (py_str v)) self in
    let result :=
      match r with
      | Ok s => s
      | Raise _ => "No Evaluation possible (yet)!"
      end in
    (Ok result, set_locked old_locked self).

(** [BaseParameter.__str__]. *)
Definition __str__ : M string :=
  do fullname <- read _fullname;
  do s <- to_str;
  ret (fullname ++ ": " ++ s).

End Display.

(** ** Predicates on values and calls *)

(** An array is frozen when its [flags.writeable] is off. *)
Definition frozen (v : value) : bool :=
  match v with
  | VArray _ _ _ writeable => negb writeable
  | _ => true
  end.

Definition is_load (o : op) : bool :=
  match o with OpLoad _ => true | _ => false end.

(** The characters of a name, and the names without a dot. *)
Definition has_dot (s : string) : Prop := In "."%char (list_ascii_of_string s).

(** How a full name determines a name and a location. *)
Definition names_of (fullname name location : string) : Prop :=
  ~ has_dot name /\
  (~ has_dot fullname -> name = fullname /\ location = "") /\
  (has_dot fullname -> fullname = location ++ "." ++ name).

(** What every parameter keeps as long as no record is loaded into it: the
    arrays it holds are frozen; while it explores, the explored values have
    the Python type of the current value; and a [Parameter] holds only
    values its classifier accepts, or [None]. *)
Section Kept.
Variable PARAMETER_SUPPORTED_DATA : typekey -> bool.

Definition accepted_by (cls : pclass) (v : value) : bool :=
  match cls with
  | CParameter => Param._is_supported_data PARAMETER_SUPPORTED_DATA v
  | CPickleParameter => true
  end.

Definition well_kept (self : param) : Prop :=
  frozen (_data self) = true /\
  Forall (fun v => frozen v = true) (Param.explored_rows (_explored_data self)) /\
  ((1 < _length self)%nat ->
   Forall (fun v => type v = type (_data self))
     (Param.explored_rows (_explored_data self))) /\
  (_data self = VNone \/ accepted_by (klass self) (_data self) = true) /\
  Forall (fun v => accepted_by (klass self) v = true)
    (Param.explored_rows (_explored_data self)).

End Kept.

(** Calls made on [Parameter("x", 1.0)]. *)
Definition calls_after_explore : list op :=
  [OpExplore points_123; OpUnlock; OpSetParameterAccess 2; OpGet].

(** [PickleParameter("x", [1, 2])] after [explore([[1, 2], []])]. *)
Definition pickle_x_explored : param :=
  run_op globally.PARAMETER_SUPPORTED_DATA (OpExplore [list_1_2; VList []]) pickle_x.

(** A record without "Data", and a record whose "ExploredData" table has
    no column "data". *)
Definition record_without_data : gmap string ObjectTable :=
  <["ExploredData" := ObjectTable_of "data" [VFloat float_2_0]]> ∅.

Definition record_with_other_column : gmap string ObjectTable :=
  <["ExploredData" := ObjectTable_of "values" [VFloat float_2_0]]>
    (<["Data" := ObjectTable_of "data" [VFloat float_3_0]]> ∅).


(** The values pickle serialises whatever their content: [None], booleans,
    numbers, strings, and the lists, arrays and tables of such values.  An
    instance of another class may or may not be picklable, and is not
    counted here. *)
Fixpoint picklable (v : value) : bool :=
  match v with
  | VObj _ => false
  | VList l => forallb picklable l
  | VArray _ _ items _ => forallb picklable items
  | VFrame _ cols => forallb (fun col => forallb picklable (snd col)) cols
  | _ => true
  end.

Definition held_picklable (self : param) : bool :=
  picklable (_data self)
  && forallb picklable (Param.explored_rows (_explored_data self)).

(** Calls made on [Parameter("x")], with arrays. *)
Definition calls_with_arrays : list op :=
  [OpSet array_of_2; OpExplore [array_of_2; array_of_3]; OpUnlock;
   OpSetParameterAccess 1].

(** * Properties *)

Ltac unfold_monad :=
  unfold bind, ret, raise, assign, read, lift in *.

Ltac unfold_base :=
  unfold BaseParameter._rename, BaseParameter.lock, BaseParameter.unlock,
    BaseParameter.is_locked, BaseParameter.is_array, BaseParameter.is_empty,
    BaseParameter.__len__ in *.

Ltac unfold_methods :=
  unfold store, load, Param.set, Param.explore, Param.get, Param.shrink,
    Param.empty, Param.set_parameter_access, Param.add_comment,
    Param.set_full_copy, Param.__store__, Param.__load__,
    PickleParameter.__store__, PickleParameter.__load__,
    Param._data_sanity_checks, Param.self_is_supported_data in *;
  unfold_base; unfold_monad.

(** Runs a method body through all its exits. *)
Ltac step_method :=
  repeat (progress (unfold_methods; simpl in *; repeat case_match; simplify_eq/=));
  auto; try lia.

(** ** The scenarios of the specification *)

(** [Parameter("a.b.c", 3.0)] has name "c", location "a.b", full name
    "a.b.c", value 3.0 and length 1, and is not an array. *)
Example Parameter_a_b_c :
  match Param.__init__ globally.PARAMETER_SUPPORTED_DATA CParameter "a.b.c"
          (VFloat float_3_0) None with
  | Ok p =>
      _name p = "c" /\ _location p = "a.b" /\ _fullname p = "a.b.c" /\
      fst (Param.get p) = Ok (VFloat float_3_0) /\
      _length p = 1%nat /\
      fst (BaseParameter.is_array p) = Ok false
  | Raise _ => False
  end.
Proof. vm_compute. repeat split. Qed.

(** [Parameter("x", 1.0).explore([1.0, 2.0, 3.0])] has length 3 and is
    locked; [set_parameter_access(2); get()] returns 3.0. *)
Example Parameter_x_explore_scenario :
  _length param_x_explored = 3%nat /\
  _locked param_x_explored = true /\
  fst ((Param.set_parameter_access 2 ;; Param.get) param_x_explored)
  = Ok (VFloat float_3_0).
Proof. repeat split. Qed.

Example split_examples :
  split "." "a.b.c" = ["a"; "b"; "c"] /\ split "." "x" = ["x"] /\
  split "." "" = [""] /\ split "." "a." = ["a"; ""].
Proof. repeat split. Qed.

Example tuple_getitem_examples :
  tuple_getitem points_123 0 = Ok (VFloat float_1_0) /\
  tuple_getitem points_123 (-1) = Ok (VFloat float_3_0) /\
  tuple_getitem points_123 3 = Raise (Exn IndexError ErrorKind.msg_tuple_index) /\
  tuple_getitem points_123 (-4) = Raise (Exn IndexError ErrorKind.msg_tuple_index).
Proof. repeat split. Qed.

Section ParameterFacts.
(** Membership in [globally.PARAMETER_SUPPORTED_DATA]. *)
Variable supported : typekey -> bool.

(** ** The sanity checks of [explore] *)

(** The checks read the object and never write it. *)
Lemma sanity_loop_state default_val data_list data_tuple self :
  snd (Param._data_sanity_checks_loop supported default_val data_list data_tuple self)
  = self.
Proof.
  revert data_tuple.
  induction data_list as [|val rest IH]; intros data_tuple; simpl; [reflexivity|].
  unfold_methods.
  destruct (klass self); simpl.
  - destruct (Param._is_supported_data supported (Param._convert_data val)); simpl;
      [|reflexivity].
    destruct (Param._values_of_same_type (Param._convert_data val) default_val);
      simpl; [apply IH | reflexivity].
  - destruct (Param._values_of_same_type (Param._convert_data val) default_val);
      simpl; [apply IH | reflexivity].
Qed.

Lemma sanity_checks_state data_list self :
  snd (Param._data_sanity_checks supported data_list self) = self.
Proof. unfold Param._data_sanity_checks; unfold_monad; simpl. apply sanity_loop_state. Qed.

(** [explore], one case per exit. *)
Lemma explore_unfold explore_list self :
  Param.explore supported explore_list self =
  if _locked self then (Raise (Exn ParameterLockedException ErrorKind.msg_locked), self)
  else if (1 <? _length self)%nat
  then (Raise (Exn TypeError ErrorKind.msg_already_explored), self)
  else match fst (Param._data_sanity_checks supported explore_list self) with
       | Ok data_tuple =>
           (Ok tt, set_locked true
                     (set_explored_data (ExplTuple data_tuple)
                        (set_length (length data_tuple) self)))
       | Raise e => (Raise e, self)
       end.
Proof.
  unfold Param.explore. unfold_base. unfold_monad. simpl.
  destruct (_locked self); [reflexivity|].
  destruct (1 <? _length self)%nat; [reflexivity|].
  pose proof (sanity_checks_state explore_list self) as Hs.
  destruct (Param._data_sanity_checks supported explore_list self) as [[t|e] s'];
    simpl in *; subst s'; reflexivity.
Qed.

(** A failing [explore] leaves the object as it was. *)
Lemma explore_raise_unchanged explore_list self e self' :
  Param.explore supported explore_list self = (Raise e, self') -> self' = self.
Proof.
  rewrite explore_unfold. repeat case_match; intros [=]; subst; reflexivity.
Qed.

(** A successful [explore] locks the object. *)
Lemma explore_ok_locked explore_list self self' :
  Param.explore supported explore_list self = (Ok tt, self') -> _locked self' = true.
Proof.
  rewrite explore_unfold. repeat case_match; intros [=]; subst; reflexivity.
Qed.

(** ** Invariants of method calls *)

Lemma run_op_consistent o self :
  explored_consistent self -> explored_consistent (run_op supported o self).
Proof.
  unfold explored_consistent. intros Hc.
  destruct o; simpl; try exact Hc.
  2: { rewrite explore_unfold. repeat case_match; simpl; auto.
       intros _. eexists; split; reflexivity. }
  all: unfold Param.empty, Param.shrink, dict_getitem; step_method.
  all: intros _; eexists; split; reflexivity.
Qed.

Lemma init_consistent cls fullname data comment self :
  Param.__init__ supported cls fullname data comment = Ok self ->
  explored_consistent self.
Proof.
  unfold Param.__init__, explored_consistent. unfold_methods. simpl.
  repeat case_match; intros [=]; simplify_eq/=; lia.
Qed.

Lemma reachable_consistent self :
  reachable supported self -> explored_consistent self.
Proof.
  induction 1 as [cls fullname data comment self Hi | o self _ IH].
  - eapply init_consistent; eassumption.
  - apply run_op_consistent; assumption.
Qed.

(** Only [unlock] clears the lock. *)
Lemma run_op_keeps_lock o self :
  is_unlock o = false -> _locked self = true ->
  _locked (run_op supported o self) = true.
Proof.
  intros Ho Hl. destruct o; simpl; try discriminate Ho; try assumption.
  2: { rewrite explore_unfold, Hl. assumption. }
  all: unfold Param.empty, Param.shrink, dict_getitem; step_method.
Qed.

Lemma run_ops_keep_lock ops self :
  forallb (fun o => negb (is_unlock o)) ops = true -> _locked self = true ->
  _locked (run_ops supported ops self) = true.
Proof.
  revert self. induction ops as [|o ops IH]; intros self Hops Hl; simpl in *.
  - assumption.
  - apply andb_prop in Hops as [Ho Hops].
    apply IH; [assumption|].
    apply run_op_keeps_lock; [|assumption].
    destruct (is_unlock o); [discriminate | reflexivity].
Qed.

End ParameterFacts.

Lemma Parameter_x_ok : Parameter_x = Ok param_x.
Proof. reflexivity. Qed.

Lemma param_x_reachable : reachable globally.PARAMETER_SUPPORTED_DATA param_x.
Proof. eapply reachable_init. exact Parameter_x_ok. Qed.

Lemma param_x_explored_reachable :
  reachable globally.PARAMETER_SUPPORTED_DATA param_x_explored.
Proof. apply reachable_call. exact param_x_reachable. Qed.

Lemma param_x_explore_ok :
  Param.explore globally.PARAMETER_SUPPORTED_DATA points_123 param_x
  = (Ok tt, param_x_explored).
Proof. reflexivity. Qed.

Section ParameterClaims.
(** Membership in [globally.PARAMETER_SUPPORTED_DATA]. *)
Variable supported : typekey -> bool.

(** C7: on an unlocked single-value parameter, [get()] returns the
    representative value and locks the object; a second [get()] returns
    the same value and leaves the object locked and otherwise as it was. *)
Theorem get_locks_single_value self :
  _locked self = false ->
  _length self = 1%nat ->
  exists self',
    Param.get self = (Ok (_data self), self') /\
    _locked self' = true /\
    self' = set_locked true self /\
    Param.get self' = (Ok (_data self), self').
Proof.
  intros _ _. exists (set_locked true self).
  unfold Param.get. unfold_base. unfold_monad. simpl. auto.
Qed.

(** C3: after a successful [explore] the object is locked, and after any
    further calls other than [unlock()], [set(v)] and [explore(vs)] raise
    ParameterLockedException and change nothing, for all [v] and [vs]. *)
Theorem explore_locks_until_unlock explore_list self self' ops v vs :
  Param.explore supported explore_list self = (Ok tt, self') ->
  forallb (fun o => negb (is_unlock o)) ops = true ->
  let later := run_ops supported ops self' in
  _locked self' = true /\
  (exists e, Param.set supported v later = (Raise e, later)
             /\ ErrorKind.LockedError e = true) /\
  (exists e, Param.explore supported vs later = (Raise e, later)
             /\ ErrorKind.LockedError e = true).
Proof.
  intros Hex Hops later.
  pose proof (explore_ok_locked supported _ _ _ Hex) as Hl.
  pose proof (run_ops_keep_lock supported ops self' Hops Hl) as Hlater.
  fold later in Hlater.
  split; [assumption|]. split.
  - exists (Exn ParameterLockedException ErrorKind.msg_locked).
    unfold Param.set. unfold_base. unfold_monad. simpl. rewrite Hlater. auto.
  - exists (Exn ParameterLockedException ErrorKind.msg_locked).
    rewrite explore_unfold. rewrite Hlater. auto.
Qed.

(** C1, amended: for a parameter of length 1 or more that, when its length
    is above 1, holds as many explored values as its length (as every
    parameter built by the constructor and method calls does, see
    [reachable_consistent]), loading the record returned by [store()] into
    a fresh parameter gives an object with the same [get()] result, the
    same [is_array()] and the same length. *)
Theorem store_load_roundtrip fullname self fresh :
  explored_consistent self ->
  klass self = CParameter ->
  (1 <= _length self)%nat ->
  Param.__init__ supported CParameter fullname VNone None = Ok fresh ->
  exists record loaded,
    store supported self = (Ok record, self) /\
    load record fresh = (Ok tt, loaded) /\
    fst (Param.get loaded) = fst (Param.get self) /\
    fst (BaseParameter.is_array loaded) = fst (BaseParameter.is_array self) /\
    fst (BaseParameter.__len__ loaded) = fst (BaseParameter.__len__ self).
Proof.
  intros Hr Hk Hlen Hfresh.
  unfold explored_consistent in Hr.
  injection Hfresh as <-.
  unfold store, load, Param.__store__, Param.__load__, Param.get, dict_getitem.
  unfold_base. unfold_monad. simpl. rewrite Hk.
  destruct (1 <? _length self)%nat eqn:Harr.
  - destruct (Hr (proj1 (Nat.ltb_lt _ _) Harr)) as (t & Ht & Hlt).
    rewrite Ht. simpl.
    eexists _, _. split; [reflexivity|].
    rewrite lookup_insert_ne by discriminate. rewrite lookup_insert_eq. simpl.
    rewrite lookup_insert_eq. simpl.
    split; [reflexivity|]. simpl. rewrite Hlt.
    rewrite Harr. repeat split.
  - apply Nat.ltb_ge in Harr. assert (_length self = 1%nat) as Hone by lia.
    eexists _, _. split; [reflexivity|].
    rewrite lookup_insert_eq. simpl. rewrite lookup_insert_ne by discriminate.
    rewrite lookup_empty. simpl.
    split; [reflexivity|]. simpl. rewrite Hone. repeat split.
Qed.

End ParameterClaims.

Lemma get_locks_single_value_witness :
  exists self',
    Param.get param_x = (Ok (_data param_x), self') /\
    _locked self' = true /\
    self' = set_locked true param_x /\
    Param.get self' = (Ok (_data param_x), self').
Proof. apply (get_locks_single_value param_x); reflexivity. Defined.

Lemma explore_locks_until_unlock_witness :
  let later :=
    run_ops globally.PARAMETER_SUPPORTED_DATA [OpGet; OpShrink; OpSetParameterAccess 1]
      param_x_explored in
  _locked param_x_explored = true /\
  (exists e, Param.set globally.PARAMETER_SUPPORTED_DATA (VFloat float_2_0) later
             = (Raise e, later) /\ ErrorKind.LockedError e = true) /\
  (exists e, Param.explore globally.PARAMETER_SUPPORTED_DATA points_123 later
             = (Raise e, later) /\ ErrorKind.LockedError e = true).
Proof.
  apply (explore_locks_until_unlock globally.PARAMETER_SUPPORTED_DATA
           points_123 param_x param_x_explored
           [OpGet; OpShrink; OpSetParameterAccess 1] (VFloat float_2_0) points_123).
  - exact param_x_explore_ok.
  - reflexivity.
Defined.

Lemma store_load_roundtrip_witness :
  exists record loaded,
    store globally.PARAMETER_SUPPORTED_DATA param_x_explored
    = (Ok record, param_x_explored) /\
    load record fresh_y = (Ok tt, loaded) /\
    fst (Param.get loaded) = fst (Param.get param_x_explored) /\
    fst (BaseParameter.is_array loaded)
    = fst (BaseParameter.is_array param_x_explored) /\
    fst (BaseParameter.__len__ loaded)
    = fst (BaseParameter.__len__ param_x_explored).
Proof.
  apply (store_load_roundtrip globally.PARAMETER_SUPPORTED_DATA "y"
           param_x_explored fresh_y).
  - intros _. exists points_123. split; reflexivity.
  - reflexivity.
  - vm_compute. lia.
  - reflexivity.
Defined.

(** C1, as stated, fails: the copy of the parameter exploring
    [1.0, 2.0, 3.0] that a worker receives, pickled without the explored
    values, is a [Parameter] of length 3, an array, holding the accepted
    value 1.0.  [store()] on it returns a record whose "ExploredData" table
    has no row, and loading that record into the fresh [Parameter("y")]
    gives length 0 and [is_array()] false. *)
Lemma roundtrip_of_transferred_copy :
  let worker := transfer param_x_explored in
  let loaded := snd (load record_without_rows fresh_y) in
  Parameter_x = Ok param_x /\
  Param.explore globally.PARAMETER_SUPPORTED_DATA points_123 param_x
  = (Ok tt, param_x_explored) /\
  klass worker = CParameter /\
  Param._is_supported_data globally.PARAMETER_SUPPORTED_DATA (_data worker) = true /\
  store globally.PARAMETER_SUPPORTED_DATA worker = (Ok record_without_rows, worker) /\
  Param.__init__ globally.PARAMETER_SUPPORTED_DATA CParameter "y" VNone None
  = Ok fresh_y /\
  load record_without_rows fresh_y = (Ok tt, loaded) /\
  fst (BaseParameter.__len__ worker) = Ok 3%nat /\
  fst (BaseParameter.__len__ loaded) = Ok 0%nat /\
  fst (BaseParameter.is_array worker) = Ok true /\
  fst (BaseParameter.is_array loaded) = Ok false.
Proof. repeat split; vm_compute; reflexivity. Qed.

(** ** Selecting an exploration point *)

(** C4, as stated, fails for a negative index: on the parameter exploring
    [1.0, 2.0, 3.0], [set_parameter_access(-1)] is outside [[0, length)]
    and yet does not raise; it selects the last point. *)
Lemma select_point_negative_index :
  Parameter_x = Ok param_x /\
  Param.explore globally.PARAMETER_SUPPORTED_DATA points_123 param_x
  = (Ok tt, param_x_explored) /\
  fst (BaseParameter.is_array param_x_explored) = Ok true /\
  _explored_data param_x_explored = ExplTuple points_123 /\
  ~ (0 <= -1 < Z.of_nat (_length param_x_explored)) /\
  Param.set_parameter_access (-1) param_x_explored
  = (Ok tt, set_data (VFloat float_3_0) param_x_explored) /\
  ~ (exists e self', Param.set_parameter_access (-1) param_x_explored
                     = (Raise e, self')).
Proof.
  split; [reflexivity|]. split; [reflexivity|].
  split; [reflexivity|]. split; [reflexivity|]. split; [vm_compute; intros [H _]; auto|].
  split; [reflexivity|].
  intros (e & self' & H). vm_compute in H. discriminate H.
Qed.

Lemma tuple_getitem_in_range (t : list value) (i : Z) :
  0 <= i < Z.of_nat (length t) ->
  exists v, t !! Z.to_nat i = Some v /\ tuple_getitem t i = Ok v.
Proof.
  intros Hi. unfold tuple_getitem. cbv zeta.
  assert ((i <? 0) = false) as Hneg by (apply Z.ltb_ge; lia).
  assert ((Z.of_nat (length t) <=? i) = false) as Hge by (apply Z.leb_gt; lia).
  assert (Z.to_nat i < length t)%nat as Hlt by lia.
  destruct (lookup_lt_is_Some_2 t (Z.to_nat i) Hlt) as [v Hv].
  exists v. rewrite Hneg, Hneg, Hge, Hv. split; reflexivity.
Qed.

Lemma tuple_getitem_negative (t : list value) (m : Z) :
  - Z.of_nat (length t) <= m < 0 ->
  exists v, t !! Z.to_nat (m + Z.of_nat (length t)) = Some v /\ tuple_getitem t m = Ok v.
Proof.
  intros Hm. unfold tuple_getitem. cbv zeta.
  assert ((m <? 0) = true) as Hneg by (apply Z.ltb_lt; lia).
  assert ((m + Z.of_nat (length t) <? 0) = false) as Hlow by (apply Z.ltb_ge; lia).
  assert ((Z.of_nat (length t) <=? m + Z.of_nat (length t)) = false) as Hge
    by (apply Z.leb_gt; lia).
  assert (Z.to_nat (m + Z.of_nat (length t)) < length t)%nat as Hlt by lia.
  destruct (lookup_lt_is_Some_2 t _ Hlt) as [v Hv].
  exists v. rewrite Hneg, Hlow, Hge, Hv. split; reflexivity.
Qed.

Lemma tuple_getitem_out_of_range (t : list value) (m : Z) :
  m < - Z.of_nat (length t) \/ Z.of_nat (length t) <= m ->
  tuple_getitem t m = Raise (Exn IndexError ErrorKind.msg_tuple_index).
Proof.
  intros Hm. unfold tuple_getitem. cbv zeta.
  destruct (m <? 0) eqn:Hneg.
  - apply Z.ltb_lt in Hneg.
    assert ((m + Z.of_nat (length t) <? 0) = true) as Hlow by (apply Z.ltb_lt; lia).
    rewrite Hlow. reflexivity.
  - rewrite Hneg. apply Z.ltb_ge in Hneg.
    assert ((Z.of_nat (length t) <=? m) = true) as Hge by (apply Z.leb_le; lia).
    rewrite Hge. reflexivity.
Qed.

(** [set_parameter_access], one case per exit. *)
Lemma set_parameter_access_unfold n self :
  Param.set_parameter_access n self =
  if (Z.of_nat (_length self) <=? n) && (1 <? _length self)%nat
  then (Raise (Exn ValueError ErrorKind.msg_access), self)
  else match Param.explored_getitem (_explored_data self) n with
       | Ok v => (Ok tt, set_data v self)
       | Raise e => (Raise e, self)
       end.
Proof.
  unfold Param.set_parameter_access. unfold_base. unfold_monad. simpl.
  destruct ((Z.of_nat (_length self) <=? n) && (1 <? _length self)%nat);
    reflexivity.
Qed.

(** C4, amended: on a parameter exploring [n] points,
    [set_parameter_access(i); get()] returns the [i]-th explored value for
    [0 <= i < n]; [set_parameter_access(m)] raises ValueError and changes
    nothing for [m >= n]; for [-n <= m < 0] it counts from the end and
    selects the value of index [n + m]; for [m < -n] the tuple access
    raises Python's IndexError and changes nothing. *)
Theorem select_point_get self t :
  _explored_data self = ExplTuple t ->
  length t = _length self ->
  (1 < _length self)%nat ->
  let n := Z.of_nat (_length self) in
  (forall i, 0 <= i < n ->
     exists v, t !! Z.to_nat i = Some v /\
       (Param.set_parameter_access i ;; Param.get) self
       = (Ok v, set_locked true (set_data v self))) /\
  (forall m, n <= m ->
     exists e, Param.set_parameter_access m self = (Raise e, self) /\
               ErrorKind.IndexError e = true) /\
  (forall m, - n <= m < 0 ->
     exists v, t !! Z.to_nat (n + m) = Some v /\
       Param.set_parameter_access m self = (Ok tt, set_data v self)) /\
  (forall m, m < - n ->
     Param.set_parameter_access m self
     = (Raise (Exn IndexError ErrorKind.msg_tuple_index), self)).
Proof.
  intros Ht Hlen Harr n. subst n. rewrite <- Hlen in *.
  assert ((1 <? _length self)%nat = true) as Hb
    by (apply Nat.ltb_lt; rewrite <- Hlen; exact Harr).
  repeat split.
  - intros i Hi. destruct (tuple_getitem_in_range t i Hi) as (v & Hv & Hg).
    exists v. split; [assumption|].
    unfold bind at 1. rewrite set_parameter_access_unfold, Ht, Hb, <- Hlen.
    assert ((Z.of_nat (length t) <=? i) = false) as -> by (apply Z.leb_gt; lia).
    simpl. rewrite Hg. reflexivity.
  - intros m Hm. exists (Exn ValueError ErrorKind.msg_access).
    rewrite set_parameter_access_unfold, Hb, <- Hlen.
    assert ((Z.of_nat (length t) <=? m) = true) as -> by (apply Z.leb_le; lia).
    split; reflexivity.
  - intros m Hm. destruct (tuple_getitem_negative t m Hm) as (v & Hv & Hg).
    exists v. rewrite Z.add_comm. split; [assumption|].
    rewrite set_parameter_access_unfold, Ht, Hb, <- Hlen.
    assert ((Z.of_nat (length t) <=? m) = false) as -> by (apply Z.leb_gt; lia).
    simpl. rewrite Hg. reflexivity.
  - intros m Hm.
    rewrite set_parameter_access_unfold, Ht, Hb, <- Hlen.
    assert ((Z.of_nat (length t) <=? m) = false) as -> by (apply Z.leb_gt; lia).
    simpl. rewrite tuple_getitem_out_of_range by lia. reflexivity.
Qed.

Lemma select_point_get_witness :
  let n := Z.of_nat (_length param_x_explored) in
  (forall i, 0 <= i < n ->
     exists v, points_123 !! Z.to_nat i = Some v /\
       (Param.set_parameter_access i ;; Param.get) param_x_explored
       = (Ok v, set_locked true (set_data v param_x_explored))) /\
  (forall m, n <= m ->
     exists e, Param.set_parameter_access m param_x_explored
               = (Raise e, param_x_explored) /\
               ErrorKind.IndexError e = true) /\
  (forall m, - n <= m < 0 ->
     exists v, points_123 !! Z.to_nat (n + m) = Some v /\
       Param.set_parameter_access m param_x_explored
       = (Ok tt, set_data v param_x_explored)) /\
  (forall m, m < - n ->
     Param.set_parameter_access m param_x_explored
     = (Raise (Exn IndexError ErrorKind.msg_tuple_index), param_x_explored)).
Proof.
  apply (select_point_get param_x_explored points_123).
  - reflexivity.
  - reflexivity.
  - vm_compute. lia.
Defined.

(** ** Transfer to a worker process *)




(** ** Empty containers *)

(** C9, as stated, fails for [explore]: on the fresh [Parameter("y")], of
    length 0, [explore([])] raises nothing; it returns, and the object is
    locked afterwards. *)
Lemma explore_on_empty_parameter_succeeds :
  Param.__init__ globally.PARAMETER_SUPPORTED_DATA CParameter "y" VNone None
  = Ok fresh_y /\
  _length fresh_y = 0%nat /\
  _data fresh_y = VNone /\
  Param.explore globally.PARAMETER_SUPPORTED_DATA [] fresh_y
  = (Ok tt, set_locked true fresh_y) /\
  set_locked true fresh_y <> fresh_y /\
  ~ (exists e, Param.explore globally.PARAMETER_SUPPORTED_DATA [] fresh_y
               = (Raise e, fresh_y)).
Proof.
  split; [reflexivity|].
  split; [reflexivity|]. split; [reflexivity|]. split; [reflexivity|].
  split; [discriminate|]. intros [e H]. vm_compute in H. discriminate H.
Qed.

Section EmptyClaims.
(** Membership in [globally.PARAMETER_SUPPORTED_DATA]. *)
Variable supported : typekey -> bool.

(** On a parameter without a value, a candidate of a supported type is
    never of the type of [None]. *)
Lemma sanity_checks_against_None self v vs :
  klass self = CParameter ->
  _data self = VNone ->
  supported (KType T_NoneType) = false ->
  exists e,
    fst (Param._data_sanity_checks supported (v :: vs) self) = Raise e /\
    (Param._is_supported_data supported (Param._convert_data v) = true ->
     e = Exn TypeError ErrorKind.msg_mismatch).
Proof.
  intros Hk Hd Hnone.
  unfold Param._data_sanity_checks. unfold_monad. simpl.
  unfold Param.self_is_supported_data. unfold_monad. simpl. rewrite Hk, Hd.
  destruct (Param._is_supported_data supported (Param._convert_data v)) eqn:Hs; simpl.
  - assert (Param._values_of_same_type (Param._convert_data v) VNone = false) as ->.
    { unfold Param._values_of_same_type.
      destruct v; simpl; try reflexivity.
      - unfold Param._is_supported_data in Hs. simpl in Hs. congruence.
      - destruct object_table; reflexivity. }
    simpl. eexists; split; [reflexivity | auto].
  - eexists; split; [reflexivity | discriminate].
Qed.

(** C9, amended: on a parameter of length 0, [shrink()] raises the
    TypeError of an empty container and changes nothing.  [explore] does
    not test for emptiness and never raises that error: on an unlocked
    empty parameter [explore([])] returns, keeps the length 0 and locks the
    object; a failing [explore] changes nothing; and on an unlocked
    [Parameter] that was never given a value, [explore] of a non-empty list
    raises, with the type-mismatch TypeError when the first candidate is of
    a supported type ([None] not being one). *)
Theorem empty_container_shrink_explore self :
  _length self = 0%nat ->
  (exists e, Param.shrink self = (Raise e, self) /\
             ErrorKind.EmptyContainerError e = true) /\
  (_locked self = false ->
   Param.explore supported [] self
   = (Ok tt, set_locked true
               (set_explored_data (ExplTuple []) (set_length 0 self)))) /\
  (forall vs e self',
     Param.explore supported vs self = (Raise e, self') ->
     self' = self /\ ErrorKind.EmptyContainerError e = false) /\
  (_locked self = false -> klass self = CParameter -> _data self = VNone ->
   supported (KType T_NoneType) = false ->
   forall v vs, exists e,
     Param.explore supported (v :: vs) self = (Raise e, self) /\
     (Param._is_supported_data supported (Param._convert_data v) = true ->
      ErrorKind.TypeMismatchError e = true)).
Proof.
  intros Hlen. repeat split.
  - exists (Exn TypeError ErrorKind.msg_shrink_empty).
    unfold Param.shrink. unfold_base. unfold_monad. simpl. rewrite Hlen.
    split; reflexivity.
  - intros Hl. rewrite explore_unfold. rewrite Hl, Hlen. reflexivity.
  - eapply explore_raise_unchanged; eassumption.
  - revert H. rewrite explore_unfold. rewrite Hlen. simpl.
    destruct (_locked self); [intros [= <- <-]; reflexivity|].
    pose proof (sanity_loop_state supported (_data self) vs [] self) as Hst.
    unfold Param._data_sanity_checks. unfold_monad. simpl.
    generalize dependent (@nil value). intros acc. revert acc.
    induction vs as [|v vs IH]; intros acc _; simpl.
    + intros [=].
    + unfold Param.self_is_supported_data. unfold_monad. simpl.
      destruct (klass self); simpl.
      * destruct (Param._is_supported_data supported (Param._convert_data v));
          simpl; [|intros [= <- <-]; reflexivity].
        destruct (Param._values_of_same_type (Param._convert_data v) (_data self));
          simpl; [|intros [= <- <-]; reflexivity].
        apply IH. apply sanity_loop_state.
      * destruct (Param._values_of_same_type (Param._convert_data v) (_data self));
          simpl; [|intros [= <- <-]; reflexivity].
        apply IH. apply sanity_loop_state.
  - intros Hl Hk Hd Hnone v vs.
    destruct (sanity_checks_against_None self v vs Hk Hd Hnone) as (e & He & Hm).
    exists e. rewrite explore_unfold. rewrite Hl, Hlen, He. simpl.
    split; [reflexivity|]. intros Hs. rewrite (Hm Hs). reflexivity.
Qed.

End EmptyClaims.

Lemma empty_container_shrink_explore_witness :
  (exists e, Param.shrink fresh_y = (Raise e, fresh_y) /\
             ErrorKind.EmptyContainerError e = true) /\
  (_locked fresh_y = false ->
   Param.explore globally.PARAMETER_SUPPORTED_DATA [] fresh_y
   = (Ok tt, set_locked true
               (set_explored_data (ExplTuple []) (set_length 0 fresh_y)))) /\
  (forall vs e self',
     Param.explore globally.PARAMETER_SUPPORTED_DATA vs fresh_y = (Raise e, self') ->
     self' = fresh_y /\ ErrorKind.EmptyContainerError e = false) /\
  (_locked fresh_y = false -> klass fresh_y = CParameter -> _data fresh_y = VNone ->
   globally.PARAMETER_SUPPORTED_DATA (KType T_NoneType) = false ->
   forall v vs, exists e,
     Param.explore globally.PARAMETER_SUPPORTED_DATA (v :: vs) fresh_y
     = (Raise e, fresh_y) /\
     (Param._is_supported_data globally.PARAMETER_SUPPORTED_DATA
        (Param._convert_data v) = true ->
      ErrorKind.TypeMismatchError e = true)).
Proof.
  apply (empty_container_shrink_explore globally.PARAMETER_SUPPORTED_DATA fresh_y).
  reflexivity.
Defined.

(** ** Loading a record *)

(** C10, as stated, fails: loading a record whose "ExploredData" table has
    no row sets the length to 0, and [is_empty()] is true afterwards.  The
    record is the one [store()] returns on the copy of an exploring
    parameter transferred without its explored values. *)
Lemma load_record_without_rows_is_empty :
  fst (store globally.PARAMETER_SUPPORTED_DATA (transfer param_x_explored))
  = Ok record_without_rows /\
  Param.__init__ globally.PARAMETER_SUPPORTED_DATA CParameter "y" VNone None
  = Ok fresh_y /\
  exists loaded,
    load record_without_rows fresh_y = (Ok tt, loaded) /\
    _length loaded = 0%nat /\
    fst (BaseParameter.is_empty loaded) = Ok true.
Proof.
  split; [reflexivity|]. split; [reflexivity|].
  eexists. split; [reflexivity|]. split; reflexivity.
Qed.

Section LoadClaims.
(** Membership in [globally.PARAMETER_SUPPORTED_DATA]. *)
Variable supported : typekey -> bool.

(** [Parameter.__store__] never raises and never writes the object. *)
Lemma Parameter_store_total self :
  klass self = CParameter ->
  store supported self
  = (Ok (if (1 <? _length self)%nat
         then <["ExploredData" :=
                  ObjectTable_of "data" (Param.explored_rows (_explored_data self))]>
                (<["Data" := ObjectTable_of "data" [_data self]]> ∅)
         else <["Data" := ObjectTable_of "data" [_data self]]> ∅), self).
Proof.
  intros Hk. unfold store, Param.__store__. unfold_base. unfold_monad. simpl.
  rewrite Hk. destruct (1 <? _length self)%nat; reflexivity.
Qed.

(** C10, amended: [store()] on a [Parameter], empty or not, returns
    without raising a record whose "Data" table has the single column
    "data" with the current value as its single entry.  A successful
    [load] sets the length to 1 when "ExploredData" is absent, and to the
    number of rows of its "data" column when it is present.  Loading the
    record stored from a parameter that holds as many explored values as
    its length whenever it explores (every parameter built by the
    constructor and method calls) gives a length of at least 1, so that
    [is_empty()] is false, also when the stored parameter was empty. *)
Theorem store_total_load_length self :
  klass self = CParameter ->
  (exists record,
     store supported self = (Ok record, self) /\
     record !! "Data" = Some (ObjectTable_of "data" [_data self])) /\
  (forall record target loaded,
     klass target = CParameter ->
     load record target = (Ok tt, loaded) ->
     match record !! "ExploredData" with
     | None => _length loaded = 1%nat
     | Some explore_table =>
         exists col, table_getitem explore_table "data" = Ok col /\
                     _explored_data loaded = ExplTuple col /\
                     _length loaded = length col
     end) /\
  (explored_consistent self ->
   forall target, klass target = CParameter ->
     exists record loaded,
       store supported self = (Ok record, self) /\
       load record target = (Ok tt, loaded) /\
       (1 <= _length loaded)%nat /\
       fst (BaseParameter.is_empty loaded) = Ok false).
Proof.
  intros Hk. split; [|split].
  - eexists. split; [apply Parameter_store_total; assumption|].
    destruct (1 <? _length self)%nat.
    + rewrite lookup_insert_ne by discriminate. apply lookup_insert_eq.
    + apply lookup_insert_eq.
  - intros record target loaded Ht.
    unfold load, Param.__load__, dict_getitem. unfold_base. unfold_monad. simpl.
    rewrite Ht.
    destruct (record !! "Data") as [data_table|]; simpl; [|discriminate].
    destruct (table_getitem data_table "data") as [col|]; simpl; [|discriminate].
    destruct (series_first col) as [v|]; simpl; [|discriminate].
    destruct (record !! "ExploredData") as [explore_table|]; simpl.
    + destruct (table_getitem explore_table "data") as [rows|]; simpl;
        [|discriminate].
      intros [= <-]. exists rows. repeat split.
    + intros [= <-]. reflexivity.
  - intros Hc target Ht. unfold explored_consistent in Hc.
    rewrite Parameter_store_total by assumption.
    unfold load, Param.__load__, dict_getitem. unfold_base. unfold_monad. simpl.
    rewrite Ht.
    destruct (1 <? _length self)%nat eqn:Harr.
    + apply Nat.ltb_lt in Harr. destruct (Hc Harr) as (t & Hexp & Hlen).
      rewrite Hexp. simpl.
      eexists _, _. split; [reflexivity|].
      rewrite lookup_insert_ne by discriminate. rewrite lookup_insert_eq. simpl.
      rewrite lookup_insert_eq. simpl.
      split; [reflexivity|]. simpl.
      destruct (length t) as [|k] eqn:Hk'; [lia|]. split; [lia | reflexivity].
    + eexists _, _. split; [reflexivity|].
      rewrite lookup_insert_eq. simpl. rewrite lookup_insert_ne by discriminate.
      rewrite lookup_empty. simpl.
      split; [reflexivity|]. simpl. split; [lia | reflexivity].
Qed.

End LoadClaims.

Lemma store_total_load_length_witness :
  (exists record,
     store globally.PARAMETER_SUPPORTED_DATA fresh_y = (Ok record, fresh_y) /\
     record !! "Data" = Some (ObjectTable_of "data" [_data fresh_y])) /\
  (forall record target loaded,
     klass target = CParameter ->
     load record target = (Ok tt, loaded) ->
     match record !! "ExploredData" with
     | None => _length loaded = 1%nat
     | Some explore_table =>
         exists col, table_getitem explore_table "data" = Ok col /\
                     _explored_data loaded = ExplTuple col /\
                     _length loaded = length col
     end) /\
  (explored_consistent fresh_y ->
   forall target, klass target = CParameter ->
     exists record loaded,
       store globally.PARAMETER_SUPPORTED_DATA fresh_y = (Ok record, fresh_y) /\
       load record target = (Ok tt, loaded) /\
       (1 <= _length loaded)%nat /\
       fst (BaseParameter.is_empty loaded) = Ok false).
Proof.
  apply (store_total_load_length globally.PARAMETER_SUPPORTED_DATA fresh_y).
  reflexivity.
Defined.

(** ** The type checks of [explore] *)

Section ExploreChecks.
(** Membership in [globally.PARAMETER_SUPPORTED_DATA]. *)
Variable supported : typekey -> bool.

(** The type of a value is never the function [np.array], so the dtype and
    shape comparisons are never reached: two values pass
    [_values_of_same_type] exactly when their types are equal. *)
Lemma values_of_same_type_is_type_equality val1 val2 :
  Param._values_of_same_type val1 val2 = bool_decide (type val1 = type val2).
Proof.
  unfold Param._values_of_same_type.
  destruct (bool_decide (type val1 = type val2)); reflexivity.
Qed.

Lemma sanity_loop_passes default_val data_list data_tuple self :
  forallb (candidate_passes supported (klass self) default_val) data_list = true ->
  fst (Param._data_sanity_checks_loop supported default_val data_list data_tuple self)
  = Ok (data_tuple ++ map Param._convert_data data_list)%list.
Proof.
  revert data_tuple.
  induction data_list as [|val rest IH]; intros data_tuple Hall; simpl.
  - rewrite app_nil_r. reflexivity.
  - simpl in Hall. apply andb_prop in Hall as [Hval Hrest].
    unfold candidate_passes in Hval. apply andb_prop in Hval as [Hsup Hsame].
    unfold Param.self_is_supported_data. unfold_monad. simpl.
    destruct (klass self); simpl in *; rewrite ?Hsup, Hsame; simpl;
      rewrite (IH _ Hrest), <- app_assoc; reflexivity.
Qed.

Lemma sanity_loop_rejects default_val data_list data_tuple self :
  forallb (candidate_passes supported (klass self) default_val) data_list = false ->
  exists e,
    fst (Param._data_sanity_checks_loop supported default_val data_list data_tuple self)
    = Raise e /\
    (e = Exn NameError ErrorKind.msg_key_undefined \/
     e = Exn TypeError ErrorKind.msg_mismatch).
Proof.
  revert data_tuple.
  induction data_list as [|val rest IH]; intros data_tuple Hall; simpl in *.
  - discriminate.
  - unfold Param.self_is_supported_data. unfold_monad. simpl.
    unfold candidate_passes in Hall at 1.
    destruct (klass self); simpl in *.
    + destruct (Param._is_supported_data supported (Param._convert_data val));
        simpl in *; [|eexists; split; [reflexivity | auto]].
      destruct (Param._values_of_same_type (Param._convert_data val) default_val);
        simpl in *; [apply IH; assumption | eexists; split; [reflexivity | auto]].
    + destruct (Param._values_of_same_type (Param._convert_data val) default_val);
        simpl in *; [apply IH; assumption | eexists; split; [reflexivity | auto]].
Qed.

(** On an unlocked parameter that is not exploring, [explore] returns
    exactly when every candidate is accepted by the classifier and has the
    Python type of the current value; otherwise it raises and changes
    nothing. *)
Lemma explore_succeeds_iff explore_list self :
  _locked self = false ->
  (1 <? _length self)%nat = false ->
  (forallb (candidate_passes supported (klass self) (_data self)) explore_list = true ->
   Param.explore supported explore_list self
   = (Ok tt, set_locked true
               (set_explored_data (ExplTuple (map Param._convert_data explore_list))
                  (set_length (length explore_list) self)))) /\
  (forallb (candidate_passes supported (klass self) (_data self)) explore_list = false ->
   exists e, Param.explore supported explore_list self = (Raise e, self)).
Proof.
  intros Hl Harr. rewrite explore_unfold. rewrite Hl, Harr.
  unfold Param._data_sanity_checks. unfold_monad. simpl. split; intros Hall.
  - rewrite (sanity_loop_passes _ _ _ _ Hall). simpl.
    rewrite length_map. reflexivity.
  - destruct (sanity_loop_rejects _ _ [] _ Hall) as (e & -> & _).
    eexists; reflexivity.
Qed.

End ExploreChecks.

(** C2, on the code: the parameter given a float array of shape [(2,)] by
    [set] is unlocked and not exploring; the candidate of shape [(3,)] is accepted
    by the classifier and is not shape-compatible with the representative
    value, and yet [explore] returns, with both candidates stored.  And on
    [Parameter("x", 1.0)] a candidate the classifier rejects, a list,
    makes [explore] raise a NameError, which is none of the exceptions of
    an unsupported type; the object is unchanged. *)
Theorem explore_type_check_gaps :
  let p := param_array in
  let q := set_locked true
             (set_explored_data
                (ExplTuple [Param._convert_data array_of_2; Param._convert_data array_of_3])
                (set_length 2 p)) in
    Param.__init__ globally.PARAMETER_SUPPORTED_DATA CParameter "x" VNone None
    = Ok fresh_x /\
    Param.set globally.PARAMETER_SUPPORTED_DATA array_of_2 fresh_x = (Ok tt, p) /\
    _locked p = false /\
    fst (BaseParameter.is_array p) = Ok false /\
    Param._is_supported_data globally.PARAMETER_SUPPORTED_DATA
      (Param._convert_data array_of_3) = true /\
    spec_type_compatible (Param._convert_data array_of_3) (_data p) = false /\
    Param.explore globally.PARAMETER_SUPPORTED_DATA [array_of_2; array_of_3] p
    = (Ok tt, q) /\
    _length q = 2%nat /\
    _explored_data q
    = ExplTuple [Param._convert_data array_of_2; Param._convert_data array_of_3] /\
    Param._is_supported_data globally.PARAMETER_SUPPORTED_DATA (VList []) = false /\
    Param.explore globally.PARAMETER_SUPPORTED_DATA [VList []] param_x
    = (Raise (Exn NameError ErrorKind.msg_key_undefined), param_x) /\
    ErrorKind.UnsupportedTypeError (Exn NameError ErrorKind.msg_key_undefined) = false.
Proof.
  repeat split; vm_compute; reflexivity.
Qed.

(** ** PickleParameter *)

(** The sibling method [Parameter.__load__] sets the length to 1 when the
    record has no "ExploredData". *)
Lemma Parameter_load_without_explored record target loaded :
  klass target = CParameter ->
  record !! "ExploredData" = None ->
  load record target = (Ok tt, loaded) ->
  _length loaded = 1%nat.
Proof.
  intros Hk Hnone.
  unfold load, Param.__load__, dict_getitem. unfold_base. unfold_monad. simpl.
  rewrite Hk, Hnone.
  repeat case_match; simpl; intros [=]; subst; reflexivity.
Qed.

(** C5, on the code: a list is rejected by the native classifier;
    [PickleParameter("x", [1, 2])] has length 1 and its [store()] returns a
    record whose "Data" column is named "data__pckl__", without
    "ExploredData".  Loading that record into a fresh PickleParameter
    restores the value but leaves the length at 0, so that [is_empty()] is
    true.  A plain Parameter given the list raises the AttributeError of an
    unsupported type in [set], and a NameError in [explore]. *)
Theorem pickle_load_leaves_length :
  let p := pickle_x in
  let data_table := ObjectTable_of "data__pckl__" [pickle.dumps list_1_2] in
  let record : gmap string ObjectTable := <["Data" := data_table]> ∅ in
  let loaded := set_data list_1_2 fresh_pickle_y in
    Param._is_supported_data globally.PARAMETER_SUPPORTED_DATA list_1_2 = false /\
    Param.__init__ globally.PARAMETER_SUPPORTED_DATA CPickleParameter "x" list_1_2 None
    = Ok p /\
    _length p = 1%nat /\
    store globally.PARAMETER_SUPPORTED_DATA p = (Ok record, p) /\
    record !! "Data" = Some data_table /\
    first_column_name data_table = Ok "data__pckl__" /\
    record !! "ExploredData" = None /\
    Param.__init__ globally.PARAMETER_SUPPORTED_DATA CPickleParameter "y" VNone None
    = Ok fresh_pickle_y /\
    load record fresh_pickle_y = (Ok tt, loaded) /\
    _data loaded = list_1_2 /\
    _length loaded = 0%nat /\
    fst (BaseParameter.is_empty loaded) = Ok true /\
    Param.__init__ globally.PARAMETER_SUPPORTED_DATA CParameter "x" list_1_2 None
    = Raise (Exn AttributeError ErrorKind.msg_set_unsupported) /\
    ErrorKind.UnsupportedTypeError (Exn AttributeError ErrorKind.msg_set_unsupported)
    = true /\
    Param.explore globally.PARAMETER_SUPPORTED_DATA [list_1_2] param_x
    = (Raise (Exn NameError ErrorKind.msg_key_undefined), param_x).
Proof.
  repeat split; vm_compute; reflexivity.
Qed.

(** ** SimpleResult *)

(** C8, as stated, fails: [SimpleResult("r", 1.0, 2.0, comment="c")] raises
    the TypeError of an unsupported item at the first float. *)
Lemma SimpleResult_of_floats_raises :
  SimpleResult.__init__ "r" [VFloat float_1_0; VFloat float_2_0]
    [("comment", VStr "c")]
  = Raise (Exn TypeError ErrorKind.msg_result_unsupported).
Proof. reflexivity. Qed.

(** C8, amended: constructing a SimpleResult from two positional items of
    a bulk kind (array or table) and [comment=c] succeeds; the field [res0]
    is the first item, [res1] the second, the comment is [c], and the data
    items are [res0] and [res1] only.  A first positional item that is not
    of a bulk kind, such as a float, makes the constructor raise the
    TypeError of an unsupported item. *)
Theorem SimpleResult_positional_items fullname a0 a1 c :
  SimpleResult.is_bulk a0 = true ->
  SimpleResult.is_bulk a1 = true ->
  (exists r,
     SimpleResult.__init__ fullname [a0; a1] [("comment", VStr c)] = Ok r /\
     SimpleResult.__getattr__ "res0" r = (Ok a0, r) /\
     SimpleResult.__getattr__ "res1" r = (Ok a1, r) /\
     SimpleResult.__getattr__ "comment" r = (Ok (VStr c), r) /\
     r_data r !! "comment" = None /\
     r_data r = <["res1" := a1]> (<["res0" := a0]> ∅)) /\
  (forall item rest kwargs,
     SimpleResult.is_bulk item = false ->
     exists e,
       SimpleResult.__init__ fullname (item :: rest) kwargs = Raise e /\
       ErrorKind.UnsupportedTypeError e = true).
Proof.
  intros H0 H1. split.
  - eexists. unfold SimpleResult.__init__, SimpleResult.set. unfold_monad. simpl.
    unfold SimpleResult.set_single. unfold_monad. simpl.
    rewrite H0. simpl. rewrite H1. simpl.
    split; [reflexivity|].
    unfold SimpleResult.__getattr__. unfold_monad. simpl.
    rewrite lookup_insert_ne by discriminate. rewrite !lookup_insert_eq.
    repeat split.
  - intros item rest kwargs Hitem.
    exists (Exn TypeError ErrorKind.msg_result_unsupported).
    unfold SimpleResult.__init__, SimpleResult.set. unfold_monad. simpl.
    destruct (SimpleResult.kwargs_pop "comment" kwargs) as [comment kwargs'].
    simpl. unfold SimpleResult.set_single. unfold_monad. simpl.
    rewrite Hitem. simpl. split; reflexivity.
Qed.

Lemma SimpleResult_positional_items_witness :
  (exists r,
     SimpleResult.__init__ "r" [array_of_2; array_of_3] [("comment", VStr "c")]
     = Ok r /\
     SimpleResult.__getattr__ "res0" r = (Ok array_of_2, r) /\
     SimpleResult.__getattr__ "res1" r = (Ok array_of_3, r) /\
     SimpleResult.__getattr__ "comment" r = (Ok (VStr "c"), r) /\
     r_data r !! "comment" = None /\
     r_data r = <["res1" := array_of_3]> (<["res0" := array_of_2]> ∅)) /\
  (forall item rest kwargs,
     SimpleResult.is_bulk item = false ->
     exists e,
       SimpleResult.__init__ "r" (item :: rest) kwargs = Raise e /\
       ErrorKind.UnsupportedTypeError e = true).
Proof.
  apply (SimpleResult_positional_items "r" array_of_2 array_of_3 "c");
    reflexivity.
Defined.

(** * Further properties of the containers *)

(** ** Names and locations *)

Lemma split_not_nil sep s : split sep s <> [].
Proof.
  destruct s as [|c r]; simpl; [discriminate|].
  destruct (Ascii.eqb c sep); [discriminate|].
  destruct (split sep r); discriminate.
Qed.

(** Joining what [split] returns gives the string back. *)
Lemma join_split sep s : join (String sep EmptyString) (split sep s) = s.
Proof.
  induction s as [|c r IH]; simpl; [reflexivity|].
  destruct (Ascii.eqb c sep) eqn:Hc.
  - apply Ascii.eqb_eq in Hc. subst c.
    destruct (split sep r) as [|h t] eqn:Hs; [destruct (split_not_nil _ _ Hs)|].
    change (join (String sep EmptyString) (EmptyString :: h :: t))
      with (String sep (join (String sep EmptyString) (h :: t))).
    rewrite IH. reflexivity.
  - destruct (split sep r) as [|h t] eqn:Hs; [destruct (split_not_nil _ _ Hs)|].
    destruct t as [|h' t]; simpl in *; rewrite <- IH; reflexivity.
Qed.

(** No piece returned by [split] contains the separator. *)
Lemma split_pieces sep s :
  Forall (fun piece => ~ In sep (list_ascii_of_string piece)) (split sep s).
Proof.
  induction s as [|c r IH]; simpl.
  - constructor; [intros [] | constructor].
  - destruct (Ascii.eqb c sep) eqn:Hc.
    + constructor; [intros [] | exact IH].
    + apply Ascii.eqb_neq in Hc.
      destruct (split sep r) as [|h t]; simpl.
      * constructor; [|constructor]. simpl. intros [H|[]]. congruence.
      * inversion IH as [|? ? Hh Ht]; subst. constructor; [|assumption].
        simpl. intros [H|H]; [congruence | exact (Hh H)].
Qed.

Lemma split_without_sep sep s :
  ~ In sep (list_ascii_of_string s) -> split sep s = [s].
Proof.
  induction s as [|c r IH]; simpl; intros Hno; [reflexivity|].
  destruct (Ascii.eqb c sep) eqn:Hc.
  - apply Ascii.eqb_eq in Hc. destruct Hno. left. assumption.
  - rewrite IH; [reflexivity|]. intros H. apply Hno. right. assumption.
Qed.

Lemma split_with_sep sep s :
  In sep (list_ascii_of_string s) -> exists h1 h2 t, split sep s = h1 :: h2 :: t.
Proof.
  induction s as [|c r IH]; simpl; intros Hin; [destruct Hin|].
  destruct (Ascii.eqb c sep) eqn:Hc.
  - destruct (split sep r) as [|h t] eqn:Hs; [destruct (split_not_nil _ _ Hs)|].
    eexists _, _, _. reflexivity.
  - apply Ascii.eqb_neq in Hc. destruct Hin as [Hin|Hin]; [congruence|].
    destruct (IH Hin) as (h1 & h2 & t & ->). eexists _, _, _. reflexivity.
Qed.

Lemma string_append_assoc (a b c : string) : (a ++ b) ++ c = a ++ b ++ c.
Proof.
  induction a as [|x a IH]; [reflexivity|].
  change (String x ((a ++ b) ++ c) = String x (a ++ b ++ c)).
  rewrite IH. reflexivity.
Qed.

(** A joined list is its last piece, or what precedes it, the separator
    and the last piece. *)
Lemma join_removelast sep (h1 h2 : string) (t : list string) :
  join sep (h1 :: h2 :: t)
  = join sep (List.removelast (h1 :: h2 :: t)) ++ sep ++ List.last (h1 :: h2 :: t) "".
Proof.
  revert h1 h2. induction t as [|h3 t IH]; intros h1 h2.
  - reflexivity.
  - change (join sep (h1 :: h2 :: h3 :: t)) with (h1 ++ sep ++ join sep (h2 :: h3 :: t)).
    rewrite IH.
    change (List.removelast (h1 :: h2 :: h3 :: t))
      with (h1 :: List.removelast (h2 :: h3 :: t)).
    change (List.last (h1 :: h2 :: h3 :: t) "") with (List.last (h2 :: h3 :: t) "").
    destruct (List.removelast (h2 :: h3 :: t)) as [|r1 rs] eqn:Hr.
    + simpl in Hr. destruct t; discriminate.
    + change (join sep (h1 :: r1 :: rs)) with (h1 ++ sep ++ join sep (r1 :: rs)).
      rewrite !string_append_assoc. reflexivity.
Qed.

Lemma split_names fullname :
  names_of fullname (List.last (split "." fullname) "")
    (join "." (List.removelast (split "." fullname))).
Proof.
  unfold names_of, has_dot. split; [|split].
  - pose proof (split_pieces "." fullname) as Hp.
    pose proof (split_not_nil "." fullname) as Hne.
    induction (split "." fullname) as [|h t IH]; [congruence|].
    inversion Hp as [|? ? Hh Ht]; subst.
    destruct t as [|h' t]; [exact Hh|].
    apply IH; [assumption | discriminate].
  - intros Hno. rewrite (split_without_sep _ _ Hno). split; reflexivity.
  - intros Hin. destruct (split_with_sep _ _ Hin) as (h1 & h2 & t & Hs).
    rewrite Hs, <- join_removelast, <- Hs. symmetry. apply (join_split "." fullname).
Qed.

(** X1: the constructors and [_rename] split the full name at its last
    dot: the name contains no dot; a full name without a dot is the name,
    with an empty location; a full name with a dot is the location, a dot
    and the name. *)
Theorem names_from_fullname cls fullname self :
  names_of fullname (_name (BaseParameter.__init__ cls fullname))
    (_location (BaseParameter.__init__ cls fullname)) /\
  (exists self',
     BaseParameter._rename fullname self = (Ok tt, self') /\
     _fullname self' = fullname /\
     names_of fullname (_name self') (_location self')) /\
  names_of fullname (r_name (BaseResult.__init__ fullname))
    (r_location (BaseResult.__init__ fullname)).
Proof.
  split; [|split].
  - apply split_names.
  - exists (set_location (join "." (List.removelast (split "." fullname)))
              (set_name (List.last (split "." fullname) "")
                 (set_fullname fullname self))).
    split; [reflexivity|]. split; [reflexivity|]. apply split_names.
  - apply split_names.
Qed.

(** ** The constructor and [set] *)

(** The constructor, one case per exit. *)
Lemma init_outcome supported cls fullname data comment :
  let accepted :=
    match cls with
    | CParameter => Param._is_supported_data supported (Param._convert_data data)
    | CPickleParameter => true
    end in
  match Param.__init__ supported cls fullname data comment with
  | Ok p =>
      klass p = cls /\ _fullname p = fullname /\ _comment p = comment /\
      _locked p = false /\ _fullcopy p = false /\
      _explored_data p = ExplTuple [] /\
      _data p = Param._convert_data data /\
      _length p = match data with VNone => 0%nat | _ => 1%nat end /\
      (data = VNone \/ accepted = true)
  | Raise e =>
      e = Exn AttributeError ErrorKind.msg_set_unsupported /\
      data <> VNone /\ accepted = false
  end.
Proof.
  unfold Param.__init__, Param.set, Param.self_is_supported_data.
  unfold_base. unfold_monad.
  destruct data, cls; simpl;
    repeat match goal with
           | |- context [Param._is_supported_data ?s ?v] =>
               destruct (Param._is_supported_data s v) eqn:?; simpl
           end;
    repeat split; auto; discriminate.
Qed.



(** [set], one case per exit. *)
Lemma set_unfold supported data self :
  Param.set supported data self =
  if _locked self
  then (Raise (Exn ParameterLockedException ErrorKind.msg_locked), self)
  else if (1 <? _length self)%nat
  then (Raise (Exn AttributeError ErrorKind.msg_set_explored), self)
  else if match klass self with
          | CParameter => Param._is_supported_data supported (Param._convert_data data)
          | CPickleParameter => true
          end
  then (Ok tt, set_length 1 (set_data (Param._convert_data data) self))
  else (Raise (Exn AttributeError ErrorKind.msg_set_unsupported), self).
Proof.
  unfold Param.set, Param.self_is_supported_data. unfold_base. unfold_monad. simpl.
  destruct (_locked self); [reflexivity|].
  destruct (1 <? _length self)%nat; [reflexivity|].
  destruct (klass self); simpl; [|reflexivity].
  destruct (Param._is_supported_data supported (Param._convert_data data));
    reflexivity.
Qed.

(** X3: [set(data)] either returns, on an unlocked parameter that is not
    exploring, and then the object holds the converted data with length 1
    and [get()] returns it; or it raises and leaves the object unchanged:
    ParameterLockedException when locked, else AttributeError when
    exploring, else AttributeError when the classifier of a [Parameter]
    rejects the data. *)
Theorem set_outcome supported data self :
  match Param.set supported data self with
  | (Ok _, self') =>
      _locked self = false /\ (_length self <= 1)%nat /\
      self' = set_length 1 (set_data (Param._convert_data data) self) /\
      fst (Param.get self') = Ok (Param._convert_data data)
  | (Raise e, self') =>
      self' = self /\
      ((_locked self = true /\ ErrorKind.LockedError e = true) \/
       (_locked self = false /\ (1 < _length self)%nat /\
        ErrorKind.AlreadyExploredError e = true) \/
       (_locked self = false /\ (_length self <= 1)%nat /\
        klass self = CParameter /\
        Param._is_supported_data supported (Param._convert_data data) = false /\
        ErrorKind.UnsupportedTypeError e = true))
  end.
Proof.
  rewrite set_unfold.
  destruct (_locked self) eqn:Hl; simpl; [split; auto|].
  destruct (1 <? _length self)%nat eqn:Harr; simpl.
  - apply Nat.ltb_lt in Harr. split; auto.
  - apply Nat.ltb_ge in Harr.
    destruct (klass self) eqn:Hk; simpl.
    + destruct (Param._is_supported_data supported (Param._convert_data data)) eqn:Hs;
        simpl; [auto|]. split; [reflexivity|]. right. right. auto 10.
    + auto.
Qed.

(** X4: while a parameter is exploring (length above 1), [set] and
    [explore] raise for every argument and change nothing, whether it is
    locked (ParameterLockedException) or not (the errors of an explored
    parameter). *)
Theorem exploring_blocks_set_and_explore supported self v vs :
  (1 < _length self)%nat ->
    (exists e, Param.set supported v self = (Raise e, self) /\
               (if _locked self then ErrorKind.LockedError e
                else ErrorKind.AlreadyExploredError e) = true) /\
    (exists e, Param.explore supported vs self = (Raise e, self) /\
               (if _locked self then ErrorKind.LockedError e
                else ErrorKind.AlreadyExploredError e) = true).
Proof.
  intros Harr. apply Nat.ltb_lt in Harr. split.
  - rewrite set_unfold, Harr.
    destruct (_locked self); eexists; split; reflexivity.
  - rewrite explore_unfold, Harr.
    destruct (_locked self); eexists; split; reflexivity.
Qed.

Lemma exploring_blocks_set_and_explore_witness :
    (exists e, Param.set globally.PARAMETER_SUPPORTED_DATA (VFloat float_2_0)
                 (snd (BaseParameter.unlock param_x_explored))
               = (Raise e, snd (BaseParameter.unlock param_x_explored)) /\
               (if _locked (snd (BaseParameter.unlock param_x_explored))
                then ErrorKind.LockedError e
                else ErrorKind.AlreadyExploredError e) = true) /\
    (exists e, Param.explore globally.PARAMETER_SUPPORTED_DATA points_123
                 (snd (BaseParameter.unlock param_x_explored))
               = (Raise e, snd (BaseParameter.unlock param_x_explored)) /\
               (if _locked (snd (BaseParameter.unlock param_x_explored))
                then ErrorKind.LockedError e
                else ErrorKind.AlreadyExploredError e) = true).
Proof.
  apply (exploring_blocks_set_and_explore globally.PARAMETER_SUPPORTED_DATA
           (snd (BaseParameter.unlock param_x_explored)) (VFloat float_2_0) points_123).
  vm_compute. lia.
Defined.

(** ** What [explore] does *)

Section ExploreOutcome.
(** Membership in [globally.PARAMETER_SUPPORTED_DATA]. *)
Variable supported : typekey -> bool.

(** When the checks return, every candidate passed, and the result is the
    converted candidates, in order. *)
Lemma sanity_checks_ok_inv explore_list self data_tuple :
  fst (Param._data_sanity_checks supported explore_list self) = Ok data_tuple ->
  forallb (candidate_passes supported (klass self) (_data self)) explore_list = true /\
  data_tuple = map Param._convert_data explore_list.
Proof.
  unfold Param._data_sanity_checks. unfold_monad. simpl. intros Hok.
  destruct (forallb (candidate_passes supported (klass self) (_data self)) explore_list)
    eqn:Hall.
  - split; [reflexivity|].
    rewrite (sanity_loop_passes supported _ _ [] _ Hall) in Hok.
    injection Hok as <-. reflexivity.
  - destruct (sanity_loop_rejects supported _ _ [] _ Hall) as (e & He & _).
    rewrite He in Hok. discriminate.
Qed.

(** X5: [explore(explore_list)] returns exactly on an unlocked parameter
    that is not exploring when every candidate, converted, is accepted by
    the classifier of the class and has the Python type of the current
    value; the object then holds the converted candidates in order, has
    their number as length, and is locked.  Otherwise it raises and leaves
    the object unchanged: ParameterLockedException when locked, else the
    TypeError of an explored parameter, else NameError or the
    type-mismatch TypeError for the first candidate that does not pass. *)
Theorem explore_outcome explore_list self :
  let passes :=
    forallb (candidate_passes supported (klass self) (_data self)) explore_list in
  match Param.explore supported explore_list self with
  | (Ok _, self') =>
      _locked self = false /\ (_length self <= 1)%nat /\ passes = true /\
      self' = set_locked true
                (set_explored_data (ExplTuple (map Param._convert_data explore_list))
                   (set_length (length explore_list) self))
  | (Raise e, self') =>
      self' = self /\
      ((_locked self = true /\ ErrorKind.LockedError e = true) \/
       (_locked self = false /\ (1 < _length self)%nat /\
        ErrorKind.AlreadyExploredError e = true) \/
       (_locked self = false /\ (_length self <= 1)%nat /\ passes = false /\
        (e = Exn NameError ErrorKind.msg_key_undefined \/
         ErrorKind.TypeMismatchError e = true)))
  end.
Proof.
  intros passes. subst passes. rewrite explore_unfold.
  destruct (_locked self) eqn:Hl; [split; auto|].
  destruct (1 <? _length self)%nat eqn:Harr.
  - apply Nat.ltb_lt in Harr. split; auto.
  - apply Nat.ltb_ge in Harr.
    destruct (forallb (candidate_passes supported (klass self) (_data self)) explore_list)
      eqn:Hall.
    + unfold Param._data_sanity_checks. unfold_monad. simpl.
      rewrite (sanity_loop_passes supported _ _ [] _ Hall). simpl.
      rewrite length_map. auto.
    + unfold Param._data_sanity_checks. unfold_monad. simpl.
      destruct (sanity_loop_rejects supported (_data self) explore_list [] self Hall)
        as (e & -> & He).
      split; [reflexivity|]. right. right.
      repeat split; auto. destruct He as [-> | ->]; auto.
Qed.

End ExploreOutcome.

(** ** What a parameter keeps *)

Lemma convert_frozen v : frozen (Param._convert_data v) = true.
Proof. destruct v; reflexivity. Qed.

Lemma tuple_getitem_lookup (t : list value) n v :
  tuple_getitem t n = Ok v -> exists k, t !! k = Some v.
Proof.
  unfold tuple_getitem. cbv zeta. repeat case_match; intros [=]; subst; eauto.
Qed.

Section KeptFacts.
(** Membership in [globally.PARAMETER_SUPPORTED_DATA]. *)
Variable supported : typekey -> bool.

Lemma candidate_passes_inv cls default_val v :
  candidate_passes supported cls default_val v = true ->
  accepted_by supported cls (Param._convert_data v) = true /\
  type (Param._convert_data v) = type default_val.
Proof.
  unfold candidate_passes, accepted_by. intros H. apply andb_prop in H as [Ha Ht].
  split; [assumption|].
  rewrite values_of_same_type_is_type_equality in Ht.
  apply bool_decide_eq_true in Ht. assumption.
Qed.

Lemma well_kept_set data self :
  well_kept supported self ->
  well_kept supported (snd (Param.set supported data self)).
Proof.
  intros (Hf & Hfs & Hty & Hacc & Haccs). rewrite set_unfold.
  destruct (_locked self); [repeat split; assumption|].
  destruct (1 <? _length self)%nat; [repeat split; assumption|].
  destruct (match klass self with
            | CParameter => _
            | CPickleParameter => true
            end) eqn:Ha; [|repeat split; assumption].
  unfold well_kept; simpl. repeat split; try assumption.
  - apply convert_frozen.
  - intros Hlt. lia.
  - right. exact Ha.
Qed.

Lemma well_kept_explore explore_list self :
  well_kept supported self ->
  well_kept supported (snd (Param.explore supported explore_list self)).
Proof.
  intros (Hf & Hfs & Hty & Hacc & Haccs). rewrite explore_unfold.
  destruct (_locked self); [repeat split; assumption|].
  destruct (1 <? _length self)%nat; [repeat split; assumption|].
  destruct (fst (Param._data_sanity_checks supported explore_list self))
    as [data_tuple|e] eqn:Hs; [|repeat split; assumption].
  apply sanity_checks_ok_inv in Hs as [Hall ->].
  rewrite forallb_forall in Hall.
  unfold well_kept; simpl. repeat split; try assumption.
  - apply Forall_map, Forall_forall. intros v Hv. apply convert_frozen.
  - intros _. apply Forall_map, Forall_forall. intros v Hv.
    apply list_elem_of_In in Hv.
    apply (candidate_passes_inv _ _ _ (Hall v Hv)).
  - apply Forall_map, Forall_forall. intros v Hv.
    apply list_elem_of_In in Hv.
    apply (candidate_passes_inv _ _ _ (Hall v Hv)).
Qed.

Lemma well_kept_set_parameter_access n self :
  well_kept supported self ->
  well_kept supported (snd (Param.set_parameter_access n self)).
Proof.
  intros (Hf & Hfs & Hty & Hacc & Haccs). rewrite set_parameter_access_unfold.
  destruct ((Z.of_nat (_length self) <=? n) && (1 <? _length self)%nat);
    [repeat split; assumption|].
  destruct (Param.explored_getitem (_explored_data self) n) as [v|e] eqn:Hg;
    [|repeat split; assumption].
  unfold Param.explored_getitem in Hg.
  destruct (_explored_data self) as [t|] eqn:He; [|discriminate].
  apply tuple_getitem_lookup in Hg as [k Hk]. simpl in *.
  unfold well_kept; simpl. rewrite He. simpl. repeat split; try assumption.
  - apply (Forall_lookup_1 _ _ _ _ Hfs Hk).
  - intros Hlt. specialize (Hty Hlt).
    rewrite (Forall_lookup_1 _ _ _ _ Hty Hk). exact Hty.
  - right. apply (Forall_lookup_1 _ _ _ _ Haccs Hk).
Qed.

(** [store()] reads the object and never writes it. *)
Lemma store_state self : snd (store supported self) = self.
Proof. step_method. Qed.

(** Every call but [__load__] keeps it. *)
Lemma well_kept_run_op o self :
  is_load o = false ->
  well_kept supported self ->
  well_kept supported (run_op supported o self).
Proof.
  intros Ho Hk. destruct o; simpl; try discriminate Ho.
  - apply well_kept_set; assumption.
  - apply well_kept_explore; assumption.
  - exact Hk.
  - exact Hk.
  - exact Hk.
  - destruct Hk as (Hf & Hfs & Hty & Hacc & Haccs).
    unfold Param.shrink. unfold_base. unfold_monad. simpl.
    repeat case_match; simplify_eq/=; unfold well_kept; simpl;
      repeat split; auto; intros; lia.
  - destruct Hk as (Hf & Hfs & Hty & Hacc & Haccs).
    unfold Param.empty, Param.shrink. unfold_base. unfold_monad. simpl.
    repeat case_match; simplify_eq/=; unfold well_kept; simpl;
      repeat split; auto; intros; lia.
  - apply well_kept_set_parameter_access; assumption.
  - unfold Param.add_comment. unfold_monad. simpl.
    destruct (_comment self); exact Hk.
  - unfold Param.set_full_copy. unfold_monad.
    destruct val; exact Hk.
  - exact Hk.
  - rewrite store_state. exact Hk.
Qed.

Lemma well_kept_init cls fullname data comment self :
  Param.__init__ supported cls fullname data comment = Ok self ->
  well_kept supported self.
Proof.
  intros Hi. pose proof (init_outcome supported cls fullname data comment) as Hc.
  cbv zeta in Hc. rewrite Hi in Hc.
  destruct Hc as (Hk & _ & _ & _ & _ & He & Hd & Hlen & Hacc).
  unfold well_kept. rewrite He, Hd, Hk. simpl. repeat split.
  - apply convert_frozen.
  - constructor.
  - constructor.
  - destruct Hacc as [-> | Hacc]; [left; reflexivity | right; exact Hacc].
  - constructor.
Qed.

Lemma well_kept_run_ops ops self :
  forallb (fun o => negb (is_load o)) ops = true ->
  well_kept supported self ->
  well_kept supported (run_ops supported ops self).
Proof.
  revert self. induction ops as [|o ops IH]; intros self Hops Hk; simpl in *.
  - assumption.
  - apply andb_prop in Hops as [Ho Hops]. apply IH; [assumption|].
    apply well_kept_run_op; [|assumption].
    destruct (is_load o); [discriminate | reflexivity].
Qed.

End KeptFacts.

Lemma run_ops_consistent supported ops self :
  explored_consistent self -> explored_consistent (run_ops supported ops self).
Proof.
  revert self. induction ops as [|o ops IH]; intros self Hc; simpl; [assumption|].
  apply IH, run_op_consistent, Hc.
Qed.

(** No call changes the class of the object. *)
Lemma run_op_klass supported o self : klass (run_op supported o self) = klass self.
Proof.
  destruct o; simpl; try reflexivity.
  2: { rewrite explore_unfold. repeat case_match; reflexivity. }
  all: unfold Param.empty, Param.shrink, dict_getitem; step_method.
Qed.

Lemma run_ops_klass supported ops self :
  klass (run_ops supported ops self) = klass self.
Proof.
  revert self. induction ops as [|o ops IH]; intros self; simpl; [reflexivity|].
  rewrite IH. apply run_op_klass.
Qed.

(** X6: in a parameter built by the constructor and changed by method
    calls other than [__load__], every array held, as current value or as
    explored value, has its writeable flag off. *)
Theorem held_arrays_are_frozen supported cls fullname data comment p ops :
  Param.__init__ supported cls fullname data comment = Ok p ->
  forallb (fun o => negb (is_load o)) ops = true ->
  let s := run_ops supported ops p in
  frozen (_data s) = true /\
  Forall (fun v => frozen v = true) (Param.explored_rows (_explored_data s)).
Proof.
  intros Hi Hops s.
  destruct (well_kept_run_ops supported ops p Hops (well_kept_init _ _ _ _ _ _ Hi))
    as (Hf & Hfs & _).
  split; assumption.
Qed.

(** X7: in such a parameter, while it explores (length above 1), the
    explored values are a tuple of that length whose members all have the
    Python type of the current value. *)
Theorem explored_values_share_type supported cls fullname data comment p ops :
  Param.__init__ supported cls fullname data comment = Ok p ->
  forallb (fun o => negb (is_load o)) ops = true ->
  let s := run_ops supported ops p in
  (1 < _length s)%nat ->
  exists t,
    _explored_data s = ExplTuple t /\
    length t = _length s /\
    Forall (fun v => type v = type (_data s)) t.
Proof.
  intros Hi Hops s Hlt. subst s.
  destruct (well_kept_run_ops supported ops p Hops (well_kept_init _ _ _ _ _ _ Hi))
    as (_ & _ & Hty & _).
  destruct (run_ops_consistent supported ops p (init_consistent _ _ _ _ _ _ Hi) Hlt)
    as (t & Ht & Hlen).
  exists t. specialize (Hty Hlt). rewrite Ht in Hty.
  repeat split; assumption.
Qed.

(** X8: in such a parameter of class [Parameter], the current value is
    [None] or accepted by the classifier, and so is every explored value. *)
Theorem held_values_are_supported supported fullname data comment p ops :
  Param.__init__ supported CParameter fullname data comment = Ok p ->
  forallb (fun o => negb (is_load o)) ops = true ->
  let s := run_ops supported ops p in
  (_data s = VNone \/ Param._is_supported_data supported (_data s) = true) /\
  Forall (fun v => Param._is_supported_data supported v = true)
    (Param.explored_rows (_explored_data s)).
Proof.
  intros Hi Hops s. subst s.
  assert (klass (run_ops supported ops p) = CParameter) as Hk.
  { pose proof (init_outcome supported CParameter fullname data comment) as Hc.
    cbv zeta in Hc. rewrite Hi in Hc. destruct Hc as (Hk & _).
    rewrite run_ops_klass. exact Hk. }
  destruct (well_kept_run_ops supported ops p Hops (well_kept_init _ _ _ _ _ _ Hi))
    as (_ & _ & _ & Hacc & Haccs).
  unfold accepted_by in *. rewrite Hk in *.
  split; assumption.
Qed.


(** The calls with arrays leave the parameter holding arrays: the current
    value is the array of shape (3,), the explored values are both arrays,
    all given writeable and held frozen. *)
Example calls_with_arrays_state :
  Param.__init__ globally.PARAMETER_SUPPORTED_DATA CParameter "x" VNone None
  = Ok fresh_x /\
  let s := run_ops globally.PARAMETER_SUPPORTED_DATA calls_with_arrays fresh_x in
  _data s = Param._convert_data array_of_3 /\
  _explored_data s
  = ExplTuple [Param._convert_data array_of_2; Param._convert_data array_of_3] /\
  frozen array_of_2 = false /\ frozen array_of_3 = false.
Proof. repeat split. Qed.

Lemma held_arrays_are_frozen_witness :
  let s := run_ops globally.PARAMETER_SUPPORTED_DATA calls_with_arrays fresh_x in
  frozen (_data s) = true /\
  Forall (fun v => frozen v = true) (Param.explored_rows (_explored_data s)).
Proof.
  apply (held_arrays_are_frozen globally.PARAMETER_SUPPORTED_DATA CParameter "x"
           VNone None fresh_x calls_with_arrays).
  - reflexivity.
  - reflexivity.
Defined.

Lemma explored_values_share_type_witness :
  let s := run_ops globally.PARAMETER_SUPPORTED_DATA calls_after_explore param_x in
  exists t,
    _explored_data s = ExplTuple t /\
    length t = _length s /\
    Forall (fun v => type v = type (_data s)) t.
Proof.
  intros s.
  apply (explored_values_share_type globally.PARAMETER_SUPPORTED_DATA CParameter "x"
           (VFloat float_1_0) None param_x calls_after_explore).
  - exact Parameter_x_ok.
  - reflexivity.
  - vm_compute. lia.
Defined.

Lemma held_values_are_supported_witness :
  let s := run_ops globally.PARAMETER_SUPPORTED_DATA calls_after_explore param_x in
  (_data s = VNone \/
   Param._is_supported_data globally.PARAMETER_SUPPORTED_DATA (_data s) = true) /\
  Forall (fun v => Param._is_supported_data globally.PARAMETER_SUPPORTED_DATA v = true)
    (Param.explored_rows (_explored_data s)).
Proof.
  apply (held_values_are_supported globally.PARAMETER_SUPPORTED_DATA "x"
           (VFloat float_1_0) None param_x calls_after_explore).
  - exact Parameter_x_ok.
  - reflexivity.
Defined.

(** ** Shrinking, emptying and selecting *)

(** X9: [shrink()] returns exactly on an unlocked parameter with data;
    the object then has length 1, the same current value and the empty
    dict as explored values, so that [set_parameter_access(n)] raises
    KeyError on it for every [n].  Otherwise [shrink()] raises and changes
    nothing: the TypeError of an empty parameter when the length is 0,
    locked or not, else ParameterLockedException. *)
Theorem shrink_outcome self :
  match Param.shrink self with
  | (Ok _, self') =>
      _locked self = false /\ (1 <= _length self)%nat /\
      self' = set_length 1 (set_explored_data ExplEmptyDict self) /\
      (forall n, exists e,
          Param.set_parameter_access n self' = (Raise e, self') /\
          exc_class e = KeyError)
  | (Raise e, self') =>
      self' = self /\
      ((_length self = 0%nat /\ ErrorKind.EmptyContainerError e = true) \/
       ((1 <= _length self)%nat /\ _locked self = true /\
        ErrorKind.LockedError e = true))
  end.
Proof.
  unfold Param.shrink. unfold_base. unfold_monad. simpl.
  destruct (_length self =? 0)%nat eqn:He; simpl.
  - apply Nat.eqb_eq in He. auto.
  - apply Nat.eqb_neq in He.
    destruct (_locked self) eqn:Hl; simpl.
    + split; [reflexivity|]. right. repeat split; auto; lia.
    + repeat split; try lia.
      intros n. rewrite set_parameter_access_unfold. simpl.
      rewrite andb_false_r. eexists. split; reflexivity.
Qed.

(** X10: on a parameter just constructed, which has explored nothing,
    [set_parameter_access(n)] raises IndexError for every [n], the default
    0 included, and changes nothing. *)
Theorem select_point_needs_exploration supported cls fullname data comment p n :
  Param.__init__ supported cls fullname data comment = Ok p ->
    Param.set_parameter_access n p
    = (Raise (Exn IndexError ErrorKind.msg_tuple_index), p).
Proof.
  intros Hi.
  pose proof (init_outcome supported cls fullname data comment) as Hc.
  cbv zeta in Hc. rewrite Hi in Hc.
  destruct Hc as (_ & _ & _ & _ & _ & He & _ & Hlen & _).
  rewrite set_parameter_access_unfold, He.
  assert ((1 <? _length p)%nat = false) as ->
    by (apply Nat.ltb_ge; rewrite Hlen; destruct data; lia).
  rewrite andb_false_r. simpl.
  rewrite tuple_getitem_out_of_range by (simpl; lia). reflexivity.
Qed.

Lemma select_point_needs_exploration_witness :
    Param.set_parameter_access 0 param_x
    = (Raise (Exn IndexError ErrorKind.msg_tuple_index), param_x).
Proof.
  apply (select_point_needs_exploration globally.PARAMETER_SUPPORTED_DATA
           CParameter "x" (VFloat float_1_0) None param_x 0).
  exact Parameter_x_ok.
Defined.

(** [empty], one case per exit. *)
Lemma empty_unfold self :
  Param.empty self =
  if _locked self
  then (Raise (Exn ParameterLockedException ErrorKind.msg_locked), self)
  else if (_length self =? 0)%nat
  then (Raise (Exn TypeError ErrorKind.msg_shrink_empty), self)
  else (Ok tt, set_length 0
                 (set_data VNone
                    (set_length 1 (set_explored_data ExplEmptyDict self)))).
Proof.
  unfold Param.empty, Param.shrink. unfold_base. unfold_monad. simpl.
  destruct (_locked self) eqn:Hl; [reflexivity|].
  destruct (_length self =? 0)%nat; simpl; rewrite ?Hl; reflexivity.
Qed.

(** X11: [empty()] returns exactly on an unlocked parameter with data;
    the object is then empty, its value is [None], and a second [empty()]
    raises the TypeError of an empty parameter.  Otherwise [empty()] raises
    and changes nothing: ParameterLockedException when locked, also when
    the parameter is empty, else the TypeError of an empty parameter. *)
Theorem empty_outcome self :
  match Param.empty self with
  | (Ok _, self') =>
      _locked self = false /\ (1 <= _length self)%nat /\
      self' = set_length 0
                (set_data VNone (set_length 1 (set_explored_data ExplEmptyDict self))) /\
      fst (BaseParameter.is_empty self') = Ok true /\
      (exists e, Param.empty self' = (Raise e, self') /\
                 ErrorKind.EmptyContainerError e = true)
  | (Raise e, self') =>
      self' = self /\
      ((_locked self = true /\ ErrorKind.LockedError e = true) \/
       (_locked self = false /\ _length self = 0%nat /\
        ErrorKind.EmptyContainerError e = true))
  end.
Proof.
  rewrite empty_unfold.
  destruct (_locked self) eqn:Hl; [auto|].
  destruct (_length self =? 0)%nat eqn:He.
  - apply Nat.eqb_eq in He. auto.
  - apply Nat.eqb_neq in He.
    repeat split; try lia.
    rewrite empty_unfold. simpl. rewrite Hl. eexists. split; reflexivity.
Qed.

(** ** Pickling with and without the explored values *)

(** X12: the object rebuilt from the pickled state has the class and the
    attributes of the original, except for the logger, which is made anew
    from the full name, and for the explored values, which are kept when
    [_fullcopy] is set and replaced by the empty tuple when it is not. *)
Theorem pickle_transfer self :
  transfer self
  = set_logger ("mypet.parameter.Parameter=" ++ _fullname self)
      (if _fullcopy self then self else set_explored_data (ExplTuple []) self).
Proof.
  unfold transfer, unpickle, Param.__getstate__, Param.__setstate__.
  unfold_monad. destruct self as [? ? ? ? ? ? ? ? ? ? fullcopy]. simpl.
  destruct fullcopy; reflexivity.
Qed.

(** ** String rendering *)

(** X13: [to_str()] and [__str__()] never raise and leave the object as it
    was, lock included, whether [str] of the value returns or raises; they
    render the current value, or the fixed text when [str] raises. *)
Theorem to_str_leaves_object py_str self :
  let rendered :=
    match py_str (_data self) with
    | Ok s => s
    | Raise _ => "No Evaluation possible (yet)!"
    end in
  to_str py_str self = (Ok rendered, self) /\
  __str__ py_str self = (Ok (_fullname self ++ ": " ++ rendered), self).
Proof.
  intros rendered. subst rendered.
  assert (to_str py_str self
          = (Ok match py_str (_data self) with
                | Ok s => s
                | Raise _ => "No Evaluation possible (yet)!"
                end, self)) as Hto.
  { unfold to_str, Param.get. unfold_base. unfold_monad. simpl.
    destruct self; simpl. destruct (py_str _data0); reflexivity. }
  split; [exact Hto|].
  unfold __str__. unfold_monad. cbv beta iota. rewrite Hto. reflexivity.
Qed.

(** ** Storing and loading *)





(** X15: loading a record without the key "Data" raises KeyError and
    leaves the object unchanged, for both classes. *)
Theorem load_without_data record self :
  record !! "Data" = None ->
  load record self = (Raise (Exn KeyError "Data"), self).
Proof.
  intros Hnone.
  unfold load, PickleParameter.__load__, Param.__load__, dict_getitem.
  unfold_base. unfold_monad. simpl. rewrite Hnone.
  destruct (klass self); reflexivity.
Qed.

Lemma load_without_data_witness :
  load record_without_data param_x = (Raise (Exn KeyError "Data"), param_x).
Proof. apply (load_without_data record_without_data param_x). reflexivity. Defined.

(** X16: [Parameter.__load__] assigns the current value before it reads
    "ExploredData": on a record whose "Data" table is well formed and
    whose "ExploredData" table has no column "data", it raises KeyError
    with the current value already replaced, the length and the explored
    values being as before. *)
Theorem load_is_not_atomic record data_table v rest explore_table self :
  klass self = CParameter ->
  record !! "Data" = Some data_table ->
  table_getitem data_table "data" = Ok (v :: rest) ->
  record !! "ExploredData" = Some explore_table ->
  table_getitem explore_table "data" = Raise (Exn KeyError "data") ->
  load record self = (Raise (Exn KeyError "data"), set_data v self).
Proof.
  intros Hk Hd Hcol He Hecol.
  unfold load, Param.__load__, dict_getitem. unfold_base. unfold_monad. simpl.
  rewrite Hk, Hd. simpl. rewrite Hcol. simpl. rewrite He. simpl. rewrite Hecol.
  reflexivity.
Qed.

Lemma load_is_not_atomic_witness :
  load record_with_other_column param_x
  = (Raise (Exn KeyError "data"), set_data (VFloat float_3_0) param_x).
Proof.
  apply (load_is_not_atomic record_with_other_column
           (ObjectTable_of "data" [VFloat float_3_0]) (VFloat float_3_0) []
           (ObjectTable_of "values" [VFloat float_2_0]) param_x);
    reflexivity.
Defined.

(** X17: [store()] on a Parameter, or on a PickleParameter that holds
    picklable values, returns without raising and never writes the
    object.  The record has the table "Data" with one column holding one
    entry, and the table "ExploredData" exactly when the parameter is an
    array, and no other key.  Both tables are pickled together, under the
    column "data__pckl__", exactly when the object is a PickleParameter
    whose current value the native classifier rejects; otherwise both hold
    the values themselves under the column "data". *)
Theorem store_record_shape supported self :
  (klass self = CPickleParameter -> held_picklable self = true) ->
  let pickled :=
    match klass self with
    | CParameter => false
    | CPickleParameter => negb (Param._is_supported_data supported (_data self))
    end in
  let column := if pickled then "data__pckl__" else "data" in
  let encode := fun v => if pickled then pickle.dumps v else v in
  exists record,
    store supported self = (Ok record, self) /\
    record !! "Data" = Some (ObjectTable_of column [encode (_data self)]) /\
    record !! "ExploredData"
    = (if (1 <? _length self)%nat
       then Some (ObjectTable_of column
                    (map encode (Param.explored_rows (_explored_data self))))
       else None) /\
    (forall key, key <> "Data" -> key <> "ExploredData" -> record !! key = None).
Proof.
  intros _ pickled column encode. subst pickled column encode.
  unfold store, PickleParameter.__store__, Param.__store__.
  unfold_base. unfold_monad. simpl.
  destruct (klass self); simpl;
    [|destruct (Param._is_supported_data supported (_data self)); simpl];
    destruct (1 <? _length self)%nat; simpl;
    eexists; (split; [reflexivity|]);
    rewrite ?map_id;
    repeat split;
    try (rewrite lookup_insert_ne by discriminate);
    try (apply lookup_insert_eq); try reflexivity;
    intros key H1 H2; rewrite ?lookup_insert_ne by congruence; apply lookup_empty.
Qed.

(** ** Items of a SimpleResult *)

(** [__getattr__], one case per exit. *)
Lemma getattr_unfold name r :
  SimpleResult.__getattr__ name r =
  if String.eqb name "Comment" || String.eqb name "comment"
  then (Ok (r_comment r), r)
  else match r_data r !! name with
       | Some item => (Ok item, r)
       | None => (Raise (Exn AttributeError ErrorKind.msg_result_missing), r)
       end.
Proof.
  unfold SimpleResult.__getattr__. unfold_monad.
  destruct (String.eqb name "Comment" || String.eqb name "comment");
    [reflexivity|].
  simpl. destruct (r_data r !! name); reflexivity.
Qed.

Lemma is_str_not_bulk item :
  SimpleResult.is_str item = true -> SimpleResult.is_bulk item = false.
Proof.
  unfold SimpleResult.is_str. intros H. apply bool_decide_eq_true in H.
  destruct item; simpl in *; try reflexivity; try discriminate.
  destruct object_table; discriminate.
Qed.

(** X18: [set_single(name, item)] returns exactly when the name is none of
    "comment", "Comment" and "Info" and the item is an array or a table;
    the item is then stored under the name, and reading the name returns
    it.  Under "comment" or "Comment" an item that is not a [str] fails the
    assertion, and a [str] is assigned to the comment before the TypeError
    of an unsupported item is raised; "Info" raises ValueError; any other
    name with an unsupported item raises TypeError.  But for the comment
    assigned in the second case, a raise leaves the result unchanged. *)
Theorem set_single_outcome name item r :
  let is_comment := String.eqb name "comment" || String.eqb name "Comment" in
  match SimpleResult.set_single name item r with
  | (Ok _, r') =>
      is_comment = false /\ name <> "Info" /\ SimpleResult.is_bulk item = true /\
      r' = SimpleResult.set_r_data (<[name := item]> (r_data r)) r /\
      SimpleResult.__getattr__ name r' = (Ok item, r')
  | (Raise e, r') =>
      (is_comment = true /\ SimpleResult.is_str item = false /\ r' = r /\
       exc_class e = AssertionError) \/
      (is_comment = true /\ SimpleResult.is_str item = true /\
       r' = SimpleResult.set_r_comment item r /\
       ErrorKind.UnsupportedTypeError e = true) \/
      (is_comment = false /\ name = "Info" /\ r' = r /\
       ErrorKind.ReservedNameError e = true) \/
      (is_comment = false /\ name <> "Info" /\ SimpleResult.is_bulk item = false /\
       r' = r /\ ErrorKind.UnsupportedTypeError e = true)
  end.
Proof.
  intros is_comment. subst is_comment.
  unfold SimpleResult.set_single. unfold_monad.
  destruct (String.eqb name "comment" || String.eqb name "Comment") eqn:Hc.
  - destruct (SimpleResult.is_str item) eqn:Hs; simpl.
    + assert (String.eqb name "Info" = false) as ->.
      { apply orb_prop in Hc as [Hc|Hc]; apply String.eqb_eq in Hc; subst;
          reflexivity. }
      rewrite (is_str_not_bulk _ Hs). right. left. auto.
    + left. auto.
  - simpl. destruct (String.eqb name "Info") eqn:Hi.
    + apply String.eqb_eq in Hi. right. right. left. auto.
    + apply String.eqb_neq in Hi.
      destruct (SimpleResult.is_bulk item) eqn:Hb; simpl.
      * repeat split; auto.
        rewrite getattr_unfold, orb_comm, Hc. simpl.
        rewrite lookup_insert_eq. reflexivity.
      * right. right. right. auto.
Qed.

Lemma str_of_nat_inj n m : str_of_nat n = str_of_nat m -> n = m.
Proof.
  unfold str_of_nat. intros H.
  apply DecimalNat.Unsigned.to_uint_inj.
  pose proof (NilEmpty.usu (Nat.to_uint n)) as Hn.
  pose proof (NilEmpty.usu (Nat.to_uint m)) as Hm.
  rewrite H in Hn. congruence.
Qed.

Lemma res_name_plain s :
  String.eqb ("res" ++ s) "comment" || String.eqb ("res" ++ s) "Comment" = false /\
  String.eqb ("res" ++ s) "Info" = false.
Proof. split; reflexivity. Qed.

(** An array or a table is stored under a name that starts with "res". *)
Lemma set_single_res s item r :
  SimpleResult.is_bulk item = true ->
  SimpleResult.set_single ("res" ++ s) item r
  = (Ok tt, SimpleResult.set_r_data (<["res" ++ s := item]> (r_data r)) r).
Proof.
  intros Hb. unfold SimpleResult.set_single. unfold_monad.
  destruct (res_name_plain s) as [Hc Hi]. rewrite Hc, Hi, Hb. reflexivity.
Qed.

(** The loop over the positional items, from index [idx]. *)
Lemma set_args_stores args : forall idx r,
  forallb SimpleResult.is_bulk args = true ->
  exists r',
    SimpleResult.set_args idx args r = (Ok tt, r') /\
    r_comment r' = r_comment r /\
    (forall i item, args !! i = Some item ->
       r_data r' !! ("res" ++ str_of_nat (idx + i)) = Some item) /\
    (forall name,
       (forall i, (i < length args)%nat -> name <> "res" ++ str_of_nat (idx + i)) ->
       r_data r' !! name = r_data r !! name).
Proof.
  induction args as [|arg rest IH]; intros idx r Hb; simpl in *.
  - exists r. repeat split; auto. intros i item H. rewrite lookup_nil in H. discriminate.
  - apply andb_prop in Hb as [Harg Hrest].
    unfold_monad.
    rewrite (set_single_res (str_of_nat idx) arg r Harg).
    destruct (IH (S idx) (SimpleResult.set_r_data
                            (<["res" ++ str_of_nat idx := arg]> (r_data r)) r) Hrest)
      as (r' & Hrun & Hcom & Hget & Hother).
    exists r'. split; [exact Hrun|]. split; [exact Hcom|]. split.
    + intros [|i] item Hi; simpl in Hi.
      * injection Hi as <-. rewrite Nat.add_0_r.
        rewrite Hother; [simpl; apply lookup_insert_eq|].
        intros i _ Heq. apply String.app_inj in Heq. apply str_of_nat_inj in Heq. lia.
      * replace (idx + S i)%nat with (S idx + i)%nat by lia. apply Hget, Hi.
    + intros name Hname. rewrite Hother.
      * simpl. apply lookup_insert_ne. intros Heq.
        apply (Hname 0%nat); [lia|]. rewrite Nat.add_0_r. congruence.
      * intros i Hi. replace (S idx + i)%nat with (idx + S i)%nat by lia.
        apply Hname. lia.
Qed.

(** X19: constructing a SimpleResult from positional items that are all
    arrays or tables succeeds, whatever their number; the item of index
    [i] is read back under the name "res" followed by the decimal digits
    of [i], the comment is [None], and no other name holds an item. *)
Theorem positional_items_are_named fullname args :
  forallb SimpleResult.is_bulk args = true ->
  exists r,
    SimpleResult.__init__ fullname args [] = Ok r /\
    r_comment r = VNone /\
    (forall i item, args !! i = Some item ->
       SimpleResult.__getattr__ ("res" ++ str_of_nat i) r = (Ok item, r)) /\
    (forall name,
       (forall i, (i < length args)%nat -> name <> "res" ++ str_of_nat i) ->
       r_data r !! name = None).
Proof.
  intros Hb.
  destruct (set_args_stores args 0
              (SimpleResult.set_r_comment VNone
                 (SimpleResult.set_r_data ∅ (BaseResult.__init__ fullname))) Hb)
    as (r' & Hrun & Hcom & Hget & Hother).
  exists r'. unfold SimpleResult.__init__, SimpleResult.set. unfold_monad. simpl.
  rewrite Hrun. split; [reflexivity|]. split; [exact Hcom|]. split.
  - intros i item Hi. rewrite getattr_unfold.
    destruct (res_name_plain (str_of_nat i)) as [Hc _].
    pose proof (Hget i item Hi) as Hg. change (0 + i)%nat with i in Hg.
    rewrite orb_comm, Hc. simpl. rewrite Hg. reflexivity.
  - intros name Hname. rewrite Hother; [apply lookup_empty|].
    intros i Hi. apply Hname, Hi.
Qed.

Lemma positional_items_are_named_witness :
  exists r,
    SimpleResult.__init__ "r" [array_of_2; array_of_3; array_of_2] [] = Ok r /\
    r_comment r = VNone /\
    (forall i item, [array_of_2; array_of_3; array_of_2] !! i = Some item ->
       SimpleResult.__getattr__ ("res" ++ str_of_nat i) r = (Ok item, r)) /\
    (forall name,
       (forall i, (i < length [array_of_2; array_of_3; array_of_2])%nat ->
                  name <> "res" ++ str_of_nat i) ->
       r_data r !! name = None).
Proof.
  apply (positional_items_are_named "r" [array_of_2; array_of_3; array_of_2]).
  reflexivity.
Defined.

(** X20: [__load__] of what [__store__] returns, into any result, gives a
    result that reads every name other than "comment" and "Comment" as the
    stored result does, and is empty exactly when the stored one is; the
    comment is not part of the record: the loading result keeps its
    own. *)
Theorem result_store_load r target :
  exists record r',
    SimpleResult.__store__ r = (Ok record, r) /\
    SimpleResult.__load__ record target = (Ok tt, r') /\
    r_data r' = r_data r /\
    r_comment r' = r_comment target /\
    fst (SimpleResult.is_empty r') = fst (SimpleResult.is_empty r) /\
    (forall name,
       name <> "comment" -> name <> "Comment" ->
       fst (SimpleResult.__getattr__ name r')
       = fst (SimpleResult.__getattr__ name r)) /\
    fst (SimpleResult.__getattr__ "comment" r') = Ok (r_comment target).
Proof.
  exists (r_data r), (SimpleResult.set_r_data (r_data r) target). repeat split.
  intros name H1 H2. apply String.eqb_neq in H1, H2.
  rewrite !getattr_unfold, H1, H2. simpl.
  destruct (r_data r !! name); reflexivity.
Qed.

(** X21: the constructor takes the keyword [comment] out of the named
    items and assigns it to the comment unchecked, whatever the value; the
    keyword [Comment] is not taken out and goes through [set_single], so
    that the constructor raises: the assertion error for a value that is
    not a [str], the TypeError of an unsupported item for a [str]. *)
Theorem constructor_comment_keywords fullname v :
  (exists r,
     SimpleResult.__init__ fullname [] [("comment", v)] = Ok r /\
     r_comment r = v /\ r_data r = ∅) /\
  (exists e,
     SimpleResult.__init__ fullname [] [("Comment", v)] = Raise e /\
     (if SimpleResult.is_str v then ErrorKind.UnsupportedTypeError e
      else bool_decide (exc_class e = AssertionError)) = true).
Proof.
  split.
  - eexists. repeat split.
  - unfold SimpleResult.__init__, SimpleResult.set. unfold_monad. simpl.
    unfold SimpleResult.set_single. unfold_monad. simpl.
    destruct (SimpleResult.is_str v) eqn:Hs; simpl.
    + rewrite (is_str_not_bulk _ Hs). eexists. split; reflexivity.
    + eexists. split; reflexivity.
Qed.

Lemma store_record_shape_witness :
  let pickled :=
    negb (Param._is_supported_data globally.PARAMETER_SUPPORTED_DATA
            (_data pickle_x_explored)) in
  let column := if pickled then "data__pckl__" else "data" in
  let encode := fun v => if pickled then pickle.dumps v else v in
  exists record,
    store globally.PARAMETER_SUPPORTED_DATA pickle_x_explored
    = (Ok record, pickle_x_explored) /\
    record !! "Data" = Some (ObjectTable_of column [encode (_data pickle_x_explored)]) /\
    record !! "ExploredData"
    = (if (1 <? _length pickle_x_explored)%nat
       then Some (ObjectTable_of column
                    (map encode
                       (Param.explored_rows (_explored_data pickle_x_explored))))
       else None) /\
    (forall key, key <> "Data" -> key <> "ExploredData" -> record !! key = None).
Proof.
  apply (store_record_shape globally.PARAMETER_SUPPORTED_DATA pickle_x_explored).
  intros _. reflexivity.
Defined.
